(** * yui-couchdb: the Y.Couch client classes, embedded and checked

    The repository is four YUI 3 modules worth of classes built with
    [Y.Base.create]: [Y.Couch.Base], [Y.Couch.DataSource],
    [Y.Couch.Connect], [Y.Couch.DB], [Y.Couch.Document] and [Y.Couch.View].
    Every method reads attributes, rebuilds a URL, hands a request to a
    data source and republishes the answer through an event.

    The embedding is shallow.  JavaScript values are an inductive type, an
    object of one of the classes is a record (attribute store and the
    [_uri] property), and a method is a function in a small monad that
    threads the object, may throw, and writes the effects it performs
    ([Y.log] lines, fired events, requests handed to a data source) to a
    trace.  The attribute and event machinery of YUI itself ([get], [set],
    [_set], [getAttrs], [publish], [fire]) is modelled in [Module Y] the
    way [Y.Attribute] and [Y.EventTarget] behave; the classes of the
    repository are written on top of it, method by method. *)

From Stdlib Require Import Ascii String DecimalString ZArith.
From stdpp Require Import gmap strings list.

Local Open Scope string_scope.
Local Open Scope Z_scope.
Local Set Warnings "-register-all".

(** ** JavaScript values *)

(** Numbers are the integers plus [NaN] (enough for [Y.Lang.isNumber] and
    for truthiness); an object is its own enumerable properties in
    insertion order; a string is its UTF-8 byte sequence. *)
Inductive jsval : Type :=
  | VUndefined
  | VNull
  | VBool (b : bool)
  | VNum (n : Z)
  | VNaN
  | VStr (s : string)
  | VArr (items : list jsval)
  | VObj (fields : list (string * jsval)).

Module JS.

(** [!!v] of JavaScript. *)
Definition truthy (v : jsval) : bool :=
  match v with
  | VUndefined | VNull | VNaN => false
  | VBool b => b
  | VNum n => negb (n =? 0)
  | VStr s => negb (String.eqb s "")
  | VArr _ | VObj _ => true
  end.

Definition string_of_Z (n : Z) : string :=
  NilZero.string_of_int (Z.to_int n).

Fixpoint join (sep : string) (l : list string) : string :=
  match l with
  | [] => ""
  | [x] => x
  | x :: rest => x +:+ sep +:+ join sep rest
  end.

(** [ToString]: what [+] with a string operand and [encodeURIComponent]
    apply to their argument. *)
Fixpoint to_string (v : jsval) : string :=
  match v with
  | VUndefined => "undefined"
  | VNull => "null"
  | VBool true => "true"
  | VBool false => "false"
  | VNum n => string_of_Z n
  | VNaN => "NaN"
  | VStr s => s
  | VArr items =>
      join "," (List.map (fun x => match x with
                                   | VUndefined | VNull => ""
                                   | _ => to_string x
                                   end) items)
  | VObj _ => "[object Object]"
  end.

Fixpoint assoc (k : string) (fields : list (string * jsval)) : option jsval :=
  match fields with
  | [] => None
  | (k', v) :: rest => if String.eqb k k' then Some v else assoc k rest
  end.

(** [o[k] = v] on a plain object: overwrite in place or append. *)
Fixpoint assoc_set (k : string) (v : jsval) (fields : list (string * jsval))
  : list (string * jsval) :=
  match fields with
  | [] => [(k, v)]
  | (k', v') :: rest =>
      if String.eqb k k' then (k, v) :: rest else (k', v') :: assoc_set k v rest
  end.

(** [v.k] for a [v] that is neither [null] nor [undefined]: own property
    of an object, [undefined] on anything else. *)
Definition prop (v : jsval) (k : string) : jsval :=
  match v with
  | VObj fields => default VUndefined (assoc k fields)
  | _ => VUndefined
  end.

(** [k in v] restricted to own properties of plain objects. *)
Definition has_own (v : jsval) (k : string) : bool :=
  match v with
  | VObj fields => bool_decide (is_Some (assoc k fields))
  | _ => false
  end.

Definition is_undefined (v : jsval) : bool :=
  match v with VUndefined => true | _ => false end.

Definition is_nullish (v : jsval) : bool :=
  match v with VUndefined | VNull => true | _ => false end.

(** [Y.Lang.isObject(v)] (arrays and objects; functions are not values
    here). *)
Definition isObject (v : jsval) : bool :=
  match v with VArr _ | VObj _ => true | _ => false end.

(** [a === b] on primitives; two object references are never compared
    by the code modelled here, so objects answer [false]. *)
Definition strict_eq (a b : jsval) : bool :=
  match a, b with
  | VUndefined, VUndefined => true
  | VNull, VNull => true
  | VBool x, VBool y => Bool.eqb x y
  | VNum x, VNum y => x =? y
  | VStr x, VStr y => String.eqb x y
  | _, _ => false
  end.

(** *** encodeURIComponent *)

Definition is_alnum (c : ascii) : bool :=
  let n := nat_of_ascii c in
  ((48 <=? n) && (n <=? 57) || (65 <=? n) && (n <=? 90)
   || (97 <=? n) && (n <=? 122))%nat.

(** The characters [encodeURIComponent] leaves alone:
    [A-Z a-z 0-9 - _ . ! ~ * ' ( )]. *)
Definition unreserved (c : ascii) : bool :=
  is_alnum c
  || bool_decide (c ∈ ["-"; "_"; "."; "!"; "~"; "*"; "'"; "("; ")"]%char).

Definition hex_digit (n : nat) : ascii :=
  (if n <? 10 then ascii_of_nat (48 + n) else ascii_of_nat (55 + n))%nat.

Definition escape_char (c : ascii) : string :=
  let n := nat_of_ascii c in
  String "%" (String (hex_digit (n / 16)) (String (hex_digit (n mod 16)) "")).

Fixpoint encode (s : string) : string :=
  match s with
  | EmptyString => ""
  | String c rest =>
      (if unreserved c then String c "" else escape_char c) +:+ encode rest
  end.

Definition encodeURIComponent (v : jsval) : string := encode (to_string v).

(** [s.substring(start, end)] with the clamping of the language. *)
Definition substring (s : string) (a b : Z) : string :=
  let len := Z.of_nat (String.length s) in
  let clamp x := Z.max 0 (Z.min x len) in
  let a' := clamp a in
  let b' := clamp b in
  let lo := Z.min a' b' in
  let hi := Z.max a' b' in
  String.substring (Z.to_nat lo) (Z.to_nat (hi - lo)) s.

(** [s.indexOf(c) !== -1] for a one-character needle. *)
Fixpoint contains_char (c : ascii) (s : string) : bool :=
  match s with
  | EmptyString => false
  | String c' rest => bool_decide (c = c') || contains_char c rest
  end.

End JS.

(** ** Objects, effects and the method monad *)

(** The two callbacks every fetch passes to [sendRequest]:
    [success] fires [on_success] with [{response: <parsed body>}],
    [failure] fires [couch:error] with the message [on_failure] followed by
    [e.error.message]. *)
Record callbacks : Type := {
  on_success : string;
  on_failure : string
}.

(** The [cfg] member of a request: [headers], [method], [data]. *)
Record io_cfg : Type := {
  headers : list (string * string);
  method : string;
  data : jsval
}.

(** What [ds.sendRequest] is given, together with the [source] the data
    source holds at that moment. *)
Record request : Type := {
  source : jsval;
  cfg : option io_cfg;
  callback : option callbacks
}.

Inductive effect : Type :=
  | Log (msg cat src : string)          (* Y.log(msg, cat, src) *)
  | Fired (type : string) (payload : jsval) (* this.fire(type, payload) *)
  | Request (r : request).              (* ds.sendRequest(r) *)

(** An instance: the values held by its attributes and its [_uri]
    property.  An attribute that never received a value has no entry. *)
Record obj : Type := {
  attrs : gmap string jsval;
  _uri : string
}.

Inductive outcome (A : Type) : Type :=
  | Ret (a : A)
  | Throw (e : string).
Arguments Ret {A} a.
Arguments Throw {A} e.

Definition M (A : Type) : Type := obj -> outcome A * obj * list effect.

Definition ret {A : Type} (a : A) : M A := fun o => (Ret a, o, []).

Definition throw {A : Type} (e : string) : M A := fun o => (Throw e, o, []).

Definition bind {A B : Type} (m : M A) (k : A -> M B) : M B :=
  fun o =>
    match m o with
    | (Ret a, o1, t1) =>
        match k a o1 with
        | (r, o2, t2) => (r, o2, (t1 ++ t2)%list)
        end
    | (Throw e, o1, t1) => (Throw e, o1, t1)
    end.

Notation "x <- m ;; k" := (bind m (fun x => k))
  (at level 100, m at next level, right associativity).
Notation "m ;; k" := (bind m (fun _ => k))
  (at level 100, right associativity).

Definition emit (e : effect) : M unit := fun o => (Ret tt, o, [e]).

Definition result_of {A : Type} (x : outcome A * obj * list effect) : outcome A :=
  x.1.1.
Definition object_of {A : Type} (x : outcome A * obj * list effect) : obj :=
  x.1.2.
Definition trace_of {A : Type} (x : outcome A * obj * list effect) : list effect :=
  x.2.

(** Projections of a trace. *)
Definition requests_of (t : list effect) : list request :=
  omap (fun e => match e with Request r => Some r | _ => None end) t.

Definition fired_of (t : list effect) : list (string * jsval) :=
  omap (fun e => match e with Fired ty p => Some (ty, p) | _ => None end) t.

Definition logged_of (category : string) (t : list effect) : list string :=
  omap (fun e => match e with
                 | Log msg cat _ => if String.eqb cat category then Some msg else None
                 | _ => None
                 end) t.

(** ** The YUI layer: Y.log, Y.Attribute, Y.EventTarget, Y.Base *)

(** What the classes of the repository rely on, as YUI 3 provides it:
    - [Y.Base] adds the attributes of a class lazily and brings them in at
      the first [get], [set] or [getAttrs]; every constructor that fetches
      and every fetch method calls [getAttrs] (through [_newDataSource])
      before it reads [_uri], so here the attributes are added while the
      object is built, class by class in declaration order;
    - an event is delivered to its default function only: the model has no
      subscriber that could stop it;
    - the body of a response reaches the success callback already parsed
      ([Y.JSON.parse] is not modelled). *)
Module Y.

Definition log (msg cat src : string) : M unit := emit (Log msg cat src).

(** One entry of a class's static [ATTRS]. *)
Record attr_cfg : Type := {
  value : option jsval;             (* [value], when the key is there *)
  valueFn : option (M jsval);
  readOnly : bool;
  validator : option (jsval -> bool);
  setter : option (jsval -> M jsval)
}.

Definition attr : attr_cfg :=
  {| value := None; valueFn := None; readOnly := false;
     validator := None; setter := None |}.

Fixpoint lookup_cfg (name : string) (ATTRS : list (string * attr_cfg))
  : option attr_cfg :=
  match ATTRS with
  | [] => None
  | (k, c) :: rest => if String.eqb name k then Some c else lookup_cfg name rest
  end.

(** The attribute store [_state]: read, write, and whether an attribute
    has received a value yet. *)
Definition stateGet (m : gmap string jsval) (name : string) : jsval :=
  default VUndefined (m !! name).

Definition stateAdd (m : gmap string jsval) (name : string) (v : jsval)
  : gmap string jsval := <[name := v]> m.

Definition stateHas (m : gmap string jsval) (name : string) : bool :=
  bool_decide (is_Some (m !! name)).

Definition _getStateVal (name : string) : M jsval :=
  fun o => (Ret (stateGet (attrs o) name), o, []).

Definition _setStateVal (name : string) (v : jsval) : M unit :=
  fun o => (Ret tt, {| attrs := stateAdd (attrs o) name v; _uri := _uri o |}, []).

Definition hasValue (name : string) : M bool :=
  fun o => (Ret (stateHas (attrs o) name), o, []).

(** [this.get(name)]: no class of the repository declares a getter. *)
Definition get (name : string) : M jsval := _getStateVal name.

(** [this._uri = s]. *)
Definition set_uri (s : string) : M unit :=
  fun o => (Ret tt, {| attrs := attrs o; _uri := s |}, []).

Definition get_uri : M string := fun o => (Ret (_uri o), o, []).

(** [_setAttrVal]: validator, then setter, then the store.  While the
    attribute is being added an invalid value falls back to the default;
    a setter's [undefined] result keeps the value; a primitive equal to
    the stored one is not stored again. *)
Definition _setAttrVal (name : string) (c : attr_cfg) (initializing : bool)
    (newVal : jsval) : M bool :=
  prevValRaw <- _getStateVal name ;;
  let checked :=
    match validator c with
    | None => Some newVal
    | Some valid =>
        if valid newVal then Some newVal
        else if initializing then Some (default VUndefined (value c))
        else None
    end in
  match checked with
  | None => ret false
  | Some newVal =>
      newVal <- match setter c with
                | None => ret newVal
                | Some f =>
                    retVal <- f newVal ;;
                    ret (if JS.is_undefined retVal then newVal else retVal)
                end ;;
      if JS.strict_eq newVal prevValRaw && negb (JS.isObject newVal)
      then ret false
      else _setStateVal name newVal ;; ret true
  end.

(** [_setAttr]: a name that is not an attribute is ignored; [readOnly]
    refuses a public [set] once the attribute holds a value (the first
    value an attribute receives is its initial set and is let through);
    [force] is what [_set] passes. *)
Definition _setAttr (ATTRS : list (string * attr_cfg)) (name : string)
    (val : jsval) (force : bool) : M unit :=
  match lookup_cfg name ATTRS with
  | None => ret tt
  | Some c =>
      has <- hasValue name ;;
      if has && negb force && readOnly c then ret tt
      else _ <- _setAttrVal name c false val ;; ret tt
  end.

Definition set (ATTRS : list (string * attr_cfg)) (name : string) (val : jsval)
  : M unit := _setAttr ATTRS name val false.

Definition _set (ATTRS : list (string * attr_cfg)) (name : string) (val : jsval)
  : M unit := _setAttr ATTRS name val true.

(** [this.getAttrs()]: every attribute of the class, in the order the
    class chain declares them ([names]), each read with [get]. *)
Definition getAttrs (names : list string) : M (list (string * jsval)) :=
  fun o =>
    (Ret (List.map (fun k => (k, stateGet (attrs o) k)) names),
     o, []).

(** [addAttr] during construction: the value handed to the constructor
    wins unless the attribute is [readOnly] or the value is [undefined],
    then [valueFn], then [value]; when there is one it goes through the
    validator and the setter. *)
Definition addAttr (config : list (string * jsval)) (kc : string * attr_cfg)
  : M unit :=
  let (name, c) := kc in
  let user :=
    if readOnly c then None
    else match JS.assoc name config with
         | Some v => if JS.is_undefined v then None else Some v
         | None => None
         end in
  init <- match user with
          | Some v => ret (Some v)
          | None =>
              match valueFn c with
              | Some fn => v <- fn ;; ret (Some v)
              | None => ret (value c)
              end
          end ;;
  match init with
  | Some v => _ <- _setAttrVal name c true v ;; ret tt
  | None => ret tt
  end.

Fixpoint addAttrs (config : list (string * jsval))
    (ATTRS : list (string * attr_cfg)) : M unit :=
  match ATTRS with
  | [] => ret tt
  | kc :: rest => addAttr config kc ;; addAttrs config rest
  end.

(** [Y.Base.ATTRS]. *)
Definition Base_ATTRS : list (string * attr_cfg) :=
  [ ("initialized",
      {| value := Some (VBool false); valueFn := None; readOnly := true;
         validator := None; setter := None |});
    ("destroyed",
      {| value := Some (VBool false); valueFn := None; readOnly := true;
         validator := None; setter := None |}) ].

(** The event type [fire] looks up: a type without a colon gets the
    prefix of the class (its [NAME]). *)
Definition _getType (prefix type : string) : string :=
  if JS.contains_char ":" type then type else prefix +:+ ":" +:+ type.

Fixpoint lookup_event {A : Type} (type : string) (published : list (string * A))
  : option A :=
  match published with
  | [] => None
  | (k, fn) :: rest => if String.eqb type k then Some fn else lookup_event type rest
  end.

(** [this.fire(type, payload)] on an object whose [published] events
    carry the given default functions; the model has no subscribers, so
    a published event runs its [defaultFn] and any other does nothing. *)
Definition fire (prefix : string) (published : list (string * (jsval -> M unit)))
    (type : string) (payload : jsval) : M unit :=
  let t := _getType prefix type in
  emit (Fired t payload) ;;
  match lookup_event t published with
  | Some defaultFn => defaultFn payload
  | None => ret tt
  end.

(** [Y.Lang.isBoolean], [isNumber] (finite numbers only), [isString]. *)
Module Lang.
Definition isBoolean (v : jsval) : bool :=
  match v with VBool _ => true | _ => false end.
Definition isNumber (v : jsval) : bool :=
  match v with VNum _ => true | _ => false end.
Definition isString (v : jsval) : bool :=
  match v with VStr _ => true | _ => false end.
End Lang.

(** [Y.Object.keys(v)]: the own keys of an object or the indices of an
    array; a [TypeError] on anything else. *)
Definition Object_keys (v : jsval) : M jsval :=
  match v with
  | VObj fields => ret (VArr (List.map (fun kv => VStr kv.1) fields))
  | VArr items =>
      ret (VArr (List.map (fun i => VStr (JS.string_of_Z (Z.of_nat i)))
                          (seq 0 (List.length items))))
  | _ => throw "TypeError: Object.keys called on a non-object"
  end.

End Y.

(** ** Y.QueryString.stringify, with the override of couch-base *)

Module QueryString.

Definition escape (v : jsval) : string := JS.encodeURIComponent v.

(** [name] is the third argument, absent on the outermost call.  It is
    tested for truthiness ([given]) and used as a string ([text]). *)
Definition given (name : option string) : bool :=
  match name with
  | Some n => negb (String.eqb n "")
  | None => false
  end.

Definition text (name : option string) : string :=
  match name with
  | Some n => n
  | None => "undefined"
  end.

(** [escape(name) + eq + escape(obj)] for a number or a string. *)
Definition pair (name : option string) (obj : jsval) : string :=
  JS.encode (text name) +:+ "=" +:+ escape obj.

(** The name an object hands down for its key [i]. *)
Definition nested (name : option string) (i : string) : option string :=
  Some (if given name then text name +:+ "[" +:+ i +:+ "]" else i).

(** What the object branch returns for the joined parts [s]. *)
Definition joined (name : option string) (s : string) : string :=
  if String.eqb s "" && given name then text name +:+ "=" else s.

(** [_oldStringify(obj, c, name)], the function of the querystring module
    (default separators, no [arrayKey]); [self] is [Y.QueryString.stringify]
    as it stands when the recursive calls are made.  A boolean becomes a
    number here; [NaN] is neither number nor string for [Y.Lang] and falls
    through to the object branch, where it has no property. *)
Definition _oldStringify (self : jsval -> option string -> string)
    (obj : jsval) (name : option string) : string :=
  match obj with
  | VUndefined | VNull =>
      if given name then JS.encode (text name) +:+ "=" else ""
  | VBool b => pair name (VNum (if b then 1 else 0))
  | VNum _ | VStr _ => pair name obj
  | VArr items => JS.join "&" (List.map (fun x => self x name) items)
  | VNaN => joined name ""
  | VObj fields =>
      joined name
        (JS.join "&" (List.map (fun kv => self kv.2 (nested name kv.1)) fields))
  end.

(** [Y.QueryString.stringify] after couch-base has replaced it: a boolean
    becomes its [toString()] before the old function sees it.  Written as
    one structural recursion; [stringify_is_old_after_override] states that
    it is [_oldStringify] called on the converted argument. *)
Fixpoint stringify (obj : jsval) (name : option string) : string :=
  match obj with
  | VUndefined | VNull =>
      if given name then JS.encode (text name) +:+ "=" else ""
  | VBool b => pair name (VStr (JS.to_string (VBool b)))
  | VNum _ | VStr _ => pair name obj
  | VArr items => JS.join "&" (List.map (fun x => stringify x name) items)
  | VNaN => joined name ""
  | VObj fields =>
      joined name
        (JS.join "&"
           (List.map (fun kv => stringify kv.2 (nested name kv.1)) fields))
  end.

Definition override (obj : jsval) : jsval :=
  if Y.Lang.isBoolean obj then VStr (JS.to_string obj) else obj.

End QueryString.

(** ** Y.Couch.DataSource *)

Module DataSource.

(** [new Y.Couch.DataSource(config)]: the class adds nothing to
    [Y.DataSource.IO]; of its attributes only [source] is used here, and
    it starts as [null] unless [config] brings one. *)
Definition new (config : list (string * jsval)) : jsval :=
  VObj [("source", match JS.assoc "source" config with
                   | Some v => if JS.is_undefined v then VNull else v
                   | None => VNull
                   end)].

(** [ds.set('source', url)].  When [ds] is the instance held by
    [ATTRS.dataSource] ([shared]) the write is seen through the
    attribute as well. *)
Definition set_source (shared : bool) (ds : jsval) (url : jsval) : M jsval :=
  let ds' := match ds with
             | VObj fields => VObj (JS.assoc_set "source" url fields)
             | _ => ds
             end in
  if shared then Y._setStateVal "dataSource" ds' ;; ret ds' else ret ds'.

(** [ds.sendRequest({cfg, callback})]. *)
Definition sendRequest (ds : jsval) (c : option io_cfg) (cb : option callbacks)
  : M unit :=
  emit (Request {| source := JS.prop ds "source"; cfg := c; callback := cb |}).

End DataSource.

(** ** Y.Couch.Base *)

Module Base.

Definition EVENT_ERROR : string := "couch:error".

Section Class.
(** The attribute names of the class the instance belongs to. *)
Variable names : list string.

Definition _newDataSource : M jsval :=
  Y.log "_newDataSource" "info" "Y.Couch" ;;
  a <- Y.getAttrs names ;;
  ret (DataSource.new a).

Definition _getDataSource (getNew : jsval) : M jsval :=
  Y.log "_getDataSource" "info" "Y.Couch" ;;
  if JS.strict_eq getNew (VBool true) then _newDataSource
  else Y.get "dataSource".

Definition _createDefaultDataSource : M jsval :=
  Y.log "_createDefaultDS" "info" "Y.Couch" ;;
  _newDataSource.

Definition ATTRS : list (string * Y.attr_cfg) :=
  [ ("dataSource",
      {| Y.value := None; Y.valueFn := Some _createDefaultDataSource;
         Y.readOnly := false; Y.validator := None; Y.setter := None |}) ].
End Class.

Definition _defErrorFn (e : jsval) : M unit :=
  Y.log "_defErrorFn" "info" "Y.Couch" ;;
  Y.log (JS.to_string (JS.prop e "message")) "error" "Y.Couch".

(** What [initializer] publishes. *)
Definition published : list (string * (jsval -> M unit)) :=
  [ (EVENT_ERROR, _defErrorFn) ].

Definition json_headers : list (string * string) :=
  [ ("Content-Type", "application/json") ].

(** [Y.Base]'s [init] for a class directly under [Y.Couch.Base]: the
    attributes of each class of the chain are added, then that class's
    [initializer] runs; [initialized] is set at the end. *)
Definition init (names : list string) (own : list (string * Y.attr_cfg))
    (initializer : M unit) (config : list (string * jsval))
  : outcome obj * list effect :=
  let all := (Y.Base_ATTRS ++ ATTRS names ++ own)%list in
  let r := (Y.addAttrs config Y.Base_ATTRS ;;
            Y.addAttrs config (ATTRS names) ;;
            Y.addAttrs config own ;;
            initializer ;;
            Y._set all "initialized" (VBool true))
             {| attrs := ∅; _uri := "" |} in
  (match result_of r with
   | Ret _ => Ret (object_of r)
   | Throw e => Throw e
   end, trace_of r).

(** A constructor called from a method of another instance: its effects
    join the caller's trace, the caller's own state is untouched. *)
Definition lift_new (made : outcome obj * list effect) : M obj :=
  fun o => (made.1, o, made.2).

(** The fields of a constructor argument. *)
Definition config_of (v : jsval) : list (string * jsval) :=
  match v with VObj fields => fields | _ => [] end.

(** [o.k = v] on a value held in a variable. *)
Definition set_prop (o : jsval) (k : string) (v : jsval) : jsval :=
  match o with
  | VObj fields => VObj (JS.assoc_set k v fields)
  | _ => o
  end.

End Base.

(** ** Y.Couch.View *)

Module View.

Definition NAME : string := "couch-view".
Definition EVENT_ERROR : string := "couch:error".
Definition EVENT_DATA : string := "couch:data".

Definition _baseURISetter (val : jsval) : M jsval :=
  Y.log "_baseURISetter" "info" "Y.Couch.View" ;;
  name <- Y.get "name" ;;
  Y.set_uri (JS.to_string val +:+ "/_view/" +:+ JS.to_string name) ;;
  ret val.

Definition _nameSetter (val : jsval) : M jsval :=
  Y.log "_nameSetter" "info" "Y.Couch.View" ;;
  baseURI <- Y.get "baseURI" ;;
  Y.set_uri (JS.to_string baseURI +:+ "/_view/" +:+ JS.to_string val) ;;
  ret val.

Definition stale_validator (val : jsval) : bool :=
  JS.strict_eq val (VStr "ok") || JS.strict_eq val (VStr "update_after").

(** The static [ATTRS] of the class, entry by entry.  [limit] carries
    its check under the key [validotor], which [Y.Attribute] does not
    read: the entry has no validator. *)
Definition own_ATTRS : list (string * Y.attr_cfg) :=
  [ ("baseURI",
      {| Y.value := None; Y.valueFn := None; Y.readOnly := false;
         Y.validator := None; Y.setter := Some _baseURISetter |});
    ("name",
      {| Y.value := Some (VStr ""); Y.valueFn := None; Y.readOnly := false;
         Y.validator := None; Y.setter := Some _nameSetter |});
    ("data", Y.attr);
    ("descending",
      {| Y.value := Some (VBool false); Y.valueFn := None; Y.readOnly := false;
         Y.validator := Some Y.Lang.isBoolean; Y.setter := None |});
    ("endkey", Y.attr);
    ("endkey_docid", Y.attr);
    ("group",
      {| Y.value := Some (VBool false); Y.valueFn := None; Y.readOnly := false;
         Y.validator := Some Y.Lang.isBoolean; Y.setter := None |});
    ("group_level", Y.attr);
    ("include_docs",
      {| Y.value := Some (VBool false); Y.valueFn := None; Y.readOnly := false;
         Y.validator := Some Y.Lang.isBoolean; Y.setter := None |});
    ("inclusive_end",
      {| Y.value := Some (VBool true); Y.valueFn := None; Y.readOnly := false;
         Y.validator := Some Y.Lang.isBoolean; Y.setter := None |});
    ("key", Y.attr);
    ("limit", Y.attr);
    ("reduce",
      {| Y.value := None; Y.valueFn := None; Y.readOnly := false;
         Y.validator := Some Y.Lang.isBoolean; Y.setter := None |});
    ("skip",
      {| Y.value := Some (VNum 0); Y.valueFn := None; Y.readOnly := false;
         Y.validator := Some Y.Lang.isNumber; Y.setter := None |});
    ("stale",
      {| Y.value := None; Y.valueFn := None; Y.readOnly := false;
         Y.validator := Some stale_validator; Y.setter := None |});
    ("startkey", Y.attr);
    ("startkey_docid", Y.attr) ].

Definition names : list string :=
  List.map fst Y.Base_ATTRS ++ ["dataSource"] ++ List.map fst own_ATTRS.

Definition ATTRS : list (string * Y.attr_cfg) :=
  Y.Base_ATTRS ++ Base.ATTRS names ++ own_ATTRS.

Definition get := Y.get.
Definition set := Y.set ATTRS.
Definition _set := Y._set ATTRS.

Definition _defDataFn (e : jsval) : M unit :=
  Y.log "_defDataFn" "info" "Y.Couch.View" ;;
  _set "data" (JS.prop e "response").

Definition published : list (string * (jsval -> M unit)) :=
  Base.published ++ [ (EVENT_DATA, _defDataFn) ].

Definition fire := Y.fire NAME published.

(** The keys the clean-up of [fetchData] drops by name. *)
Definition dropped (key : string) : bool :=
  String.eqb key "baseURI" || String.eqb key "name"
  || String.eqb key "dataSource" || String.eqb key "destroyed"
  || String.eqb key "initialized" || String.eqb key "data".

(** The [Y.Object.each] loop of [fetchData] that fills [requestData]. *)
Definition clean (attrs : list (string * jsval)) : list (string * jsval) :=
  fold_left
    (fun requestData kv =>
       if JS.is_nullish kv.2 then requestData
       else if dropped kv.1 then requestData
       else JS.assoc_set kv.1 kv.2 requestData)
    attrs [].

Definition fetchData_callbacks : callbacks :=
  {| on_success := EVENT_DATA;
     on_failure := "An error occurred fetching the information for the databases: " |}.

Definition fetchData : M jsval :=
  Y.log "fetchData" "info" "Y.Couch.Document" ;;
  ds <- Base._getDataSource names (VBool true) ;;
  url <- Y.get_uri ;;
  attrs <- Y.getAttrs names ;;
  let requestData := clean attrs in
  ds <- DataSource.set_source false ds (VStr url) ;;
  DataSource.sendRequest ds
    (Some {| headers := Base.json_headers; method := "GET";
             data := VObj requestData |})
    (Some fetchData_callbacks) ;;
  ret ds.

(** The two callbacks, given the parsed body or the error message. *)
Definition success (cb : callbacks) (parsed : jsval) : M unit :=
  fire (on_success cb) (VObj [("response", parsed)]).

Definition failure (cb : callbacks) (message : string) : M unit :=
  fire EVENT_ERROR (VObj [("message", VStr (on_failure cb +:+ message))]).

Definition initializer : M unit := ret tt.

Definition new (config : list (string * jsval)) : outcome obj * list effect :=
  Base.init names own_ATTRS initializer config.



End View.

(** ** Y.Couch.Document *)

Module Document.

Definition NAME : string := "couch-document".
Definition EVENT_ERROR : string := "couch:error".
Definition EVENT_INFO : string := "couch:info".
Definition EVENT_OPENED : string := "couch:opened".
Definition EVENT_SAVED : string := "couch:saved".
Definition EVENT_DELETED : string := "couch:deleted".

Definition _baseURISetter (val : jsval) : M jsval :=
  Y.log "_baseURISetter" "info" "Y.Couch.Document" ;;
  databaseName <- Y.get "databaseName" ;;
  id <- Y.get "id" ;;
  Y.set_uri (JS.to_string val +:+ "/" +:+ JS.to_string databaseName
             +:+ "/" +:+ JS.to_string id) ;;
  ret val.

Definition _databaseNameSetter (val : jsval) : M jsval :=
  Y.log "_databaseNameSetter" "info" "Y.Couch.Document" ;;
  baseURI <- Y.get "baseURI" ;;
  id <- Y.get "id" ;;
  Y.set_uri (JS.to_string baseURI +:+ "/" +:+ JS.to_string val
             +:+ "/" +:+ JS.to_string id) ;;
  ret val.

Definition _idSetter (val : jsval) : M jsval :=
  Y.log "_idSetter" "info" "Y.Couch.Document" ;;
  let val := VStr (JS.encodeURIComponent val) in
  baseURI <- Y.get "baseURI" ;;
  databaseName <- Y.get "databaseName" ;;
  Y.set_uri (JS.to_string baseURI +:+ "/" +:+ JS.to_string databaseName
             +:+ "/" +:+ JS.to_string val) ;;
  ret val.

Definition own_ATTRS : list (string * Y.attr_cfg) :=
  [ ("baseURI",
      {| Y.value := Some (VStr ""); Y.valueFn := None; Y.readOnly := false;
         Y.validator := None; Y.setter := Some _baseURISetter |});
    ("databaseName",
      {| Y.value := Some (VStr ""); Y.valueFn := None; Y.readOnly := false;
         Y.validator := None; Y.setter := Some _databaseNameSetter |});
    ("id",
      {| Y.value := Some (VStr ""); Y.valueFn := None; Y.readOnly := false;
         Y.validator := None; Y.setter := Some _idSetter |});
    ("info",
      {| Y.value := None; Y.valueFn := None; Y.readOnly := true;
         Y.validator := None; Y.setter := None |});
    ("data",
      {| Y.value := None; Y.valueFn := None; Y.readOnly := true;
         Y.validator := None; Y.setter := None |}) ].

Definition names : list string :=
  List.map fst Y.Base_ATTRS ++ ["dataSource"] ++ List.map fst own_ATTRS.

Definition ATTRS : list (string * Y.attr_cfg) :=
  Y.Base_ATTRS ++ Base.ATTRS names ++ own_ATTRS.

Definition get := Y.get.
Definition set := Y.set ATTRS.
Definition _set := Y._set ATTRS.

Definition _defInfoFn (e : jsval) : M unit :=
  Y.log "_defInfoFn" "info" "Y.Couch.Document" ;;
  set "info" (JS.prop e "response").

Definition _defOpenedFn (e : jsval) : M unit :=
  Y.log "_defOpenedFn" "info" "Y.Couch.Document" ;;
  _set "data" (JS.prop e "response").

Definition _defSavedFn (e : jsval) : M unit :=
  Y.log "_defSavedFn" "info" "Y.Couch.Document".

Definition _defRemovedFn (e : jsval) : M unit :=
  Y.log "_defRemovedFn" "info" "Y.Couch.Document".

Definition published : list (string * (jsval -> M unit)) :=
  Base.published ++
  [ (EVENT_INFO, _defInfoFn); (EVENT_OPENED, _defOpenedFn);
    (EVENT_SAVED, _defSavedFn); (EVENT_DELETED, _defRemovedFn) ].

Definition fire := Y.fire NAME published.

Definition success (cb : callbacks) (parsed : jsval) : M unit :=
  fire (on_success cb) (VObj [("response", parsed)]).

Definition failure (cb : callbacks) (message : string) : M unit :=
  fire EVENT_ERROR (VObj [("message", VStr (on_failure cb +:+ message))]).

Definition fetchInfo_callbacks : callbacks :=
  {| on_success := EVENT_INFO;
     on_failure := "An error occurred fetching the information for the databases: " |}.

Definition fetchInfo : M jsval :=
  Y.log "fetchInfo" "info" "Y.Couch.Document" ;;
  ds <- Base._getDataSource names (VBool true) ;;
  url <- Y.get_uri ;;
  ds <- DataSource.set_source false ds (VStr url) ;;
  DataSource.sendRequest ds
    (Some {| headers := Base.json_headers; method := "GET";
             data := VUndefined |})
    (Some fetchInfo_callbacks) ;;
  ret ds.

(** [getAllViews]: the event fired on the failing branch is the string
    ['EVENT_ERROR'], as the source writes it, not the constant. *)
Definition getAllViews : M jsval :=
  Y.log "fetchAllViews" "info" "Y.Couch.Document" ;;
  info <- get "info" ;;
  if negb (JS.truthy info) || negb (JS.truthy (JS.prop info "views")) then
    fire "EVENT_ERROR"
      (VObj [("message",
              VStr "There is no information for this document available.")]) ;;
    ret (VArr [])
  else Y.Object_keys (JS.prop info "views").

Definition getView (name : jsval) (config : jsval) : M obj :=
  Y.log "getView" "info" "Y.Couch.Document" ;;
  let config := if JS.truthy config then config else VObj [] in
  let config := Base.set_prop config "name" name in
  uri <- Y.get_uri ;;
  let config := Base.set_prop config "baseURI" (VStr uri) in
  Base.lift_new (View.new (Base.config_of config)).

Definition open_callbacks : callbacks :=
  {| on_success := EVENT_OPENED;
     on_failure := "An error occurred opening the document: " |}.

Definition open (options : jsval) : M jsval :=
  Y.log "open" "info" "Y.Couch.Document" ;;
  ds <- Base._getDataSource names (VBool true) ;;
  url <- Y.get_uri ;;
  ds <- DataSource.set_source false ds (VStr url) ;;
  DataSource.sendRequest ds
    (Some {| headers := Base.json_headers; method := "GET";
             data := options |})
    (Some open_callbacks) ;;
  ret ds.

Definition save_callbacks : callbacks :=
  {| on_success := EVENT_SAVED;
     on_failure := "An error occurred opening the document: " |}.

(** [save]: [this._queryString] is defined by no class of the chain, so
    the call made when [options] is not [undefined] is a [TypeError]. *)
Definition save (options : jsval) : M jsval :=
  Y.log "save" "info" "Y.Couch.Document" ;;
  documentData <- get "data" ;;
  ds <- Base._getDataSource names (VBool true) ;;
  url <- Y.get_uri ;;
  if negb (JS.truthy documentData)
     || negb (JS.truthy (JS.prop documentData "_id")) then
    fire EVENT_ERROR
      (VObj [("message", VStr "No data found on the document to save.")]) ;;
    ret VNull
  else
    let url := url +:+ JS.encodeURIComponent (JS.prop documentData "_id") in
    url <- (if negb (JS.is_undefined options)
            then throw "TypeError: this._queryString is not a function"
            else ret url) ;;
    ds <- DataSource.set_source false ds (VStr url) ;;
    DataSource.sendRequest ds
      (Some {| headers := Base.json_headers; method := "PUT";
               data := documentData |})
      (Some save_callbacks) ;;
    ret ds.

Definition remove (options : jsval) : M jsval :=
  Y.log "remove" "info" "Y.Couch.Document" ;;
  ret VUndefined.

Definition initializer : M unit :=
  _ <- fetchInfo ;; ret tt.

Definition new (config : list (string * jsval)) : outcome obj * list effect :=
  Base.init names own_ATTRS initializer config.

End Document.

(** ** Y.Couch.DB *)

Module DB.

Definition NAME : string := "couch-db".
Definition EVENT_ERROR : string := "couch:error".
Definition EVENT_INFO : string := "couch:info".
Definition EVENT_FETCH_ALL : string := "couch:fetchAll".

Definition _baseURISetter (val : jsval) : M jsval :=
  Y.log "_baseURISetter" "info" "Y.Couch.DB" ;;
  name <- Y.get "name" ;;
  Y.set_uri (JS.to_string val +:+ "/" +:+ JS.to_string name +:+ "/") ;;
  ret val.

Definition _nameSetter (val : jsval) : M jsval :=
  Y.log "_nameSetter" "info" "Y.Couch.DB" ;;
  baseURI <- Y.get "baseURI" ;;
  Y.set_uri (JS.to_string baseURI +:+ "/" +:+ JS.to_string val +:+ "/") ;;
  ret val.

Definition own_ATTRS : list (string * Y.attr_cfg) :=
  [ ("baseURI",
      {| Y.value := Some (VStr ""); Y.valueFn := None; Y.readOnly := false;
         Y.validator := None; Y.setter := Some _baseURISetter |});
    ("name",
      {| Y.value := Some (VStr ""); Y.valueFn := None; Y.readOnly := false;
         Y.validator := None; Y.setter := Some _nameSetter |});
    ("info",
      {| Y.value := None; Y.valueFn := None; Y.readOnly := true;
         Y.validator := None; Y.setter := None |});
    ("documents",
      {| Y.value := None; Y.valueFn := None; Y.readOnly := true;
         Y.validator := None; Y.setter := None |}) ].

Definition names : list string :=
  List.map fst Y.Base_ATTRS ++ ["dataSource"] ++ List.map fst own_ATTRS.

Definition ATTRS : list (string * Y.attr_cfg) :=
  Y.Base_ATTRS ++ Base.ATTRS names ++ own_ATTRS.

Definition get := Y.get.
Definition set := Y.set ATTRS.
Definition _set := Y._set ATTRS.

Definition _defInfoFn (e : jsval) : M unit :=
  Y.log "_defInfoFn" "info" "Y.Couch.DB" ;;
  _set "info" (JS.prop e "response").

Definition _defFecthAllFn (e : jsval) : M unit :=
  Y.log "_defFecthAllFn" "info" "Y.Couch.DB" ;;
  _set "documents" (JS.prop e "response").

Definition published : list (string * (jsval -> M unit)) :=
  Base.published ++
  [ (EVENT_INFO, _defInfoFn); (EVENT_FETCH_ALL, _defFecthAllFn) ].

Definition fire := Y.fire NAME published.

Definition success (cb : callbacks) (parsed : jsval) : M unit :=
  fire (on_success cb) (VObj [("response", parsed)]).

Definition failure (cb : callbacks) (message : string) : M unit :=
  fire EVENT_ERROR (VObj [("message", VStr (on_failure cb +:+ message))]).

Definition fetchInfo_callbacks : callbacks :=
  {| on_success := EVENT_INFO;
     on_failure := "An error occurred fetching the information for the databases: " |}.

Definition fetchInfo : M jsval :=
  Y.log "fetchInfo" "info" "Y.Couch.Db" ;;
  ds <- Base._getDataSource names (VBool true) ;;
  url <- Y.get_uri ;;
  ds <- DataSource.set_source false ds (VStr url) ;;
  DataSource.sendRequest ds
    (Some {| headers := Base.json_headers; method := "GET";
             data := VUndefined |})
    (Some fetchInfo_callbacks) ;;
  ret ds.

Definition fetchAllDocuments_callbacks : callbacks :=
  {| on_success := EVENT_FETCH_ALL;
     on_failure := "An error occurred fetching the information for the databases: " |}.

Definition fetchAllDocuments (options : jsval) : M jsval :=
  Y.log "fetchAllDocuments" "info" "Y.Couch.Db" ;;
  ds <- Base._getDataSource names (VBool true) ;;
  uri <- Y.get_uri ;;
  let url := uri +:+ "_all_docs" in
  ds <- DataSource.set_source false ds (VStr url) ;;
  DataSource.sendRequest ds
    (Some {| headers := Base.json_headers; method := "GET";
             data := options |})
    (Some fetchAllDocuments_callbacks) ;;
  ret ds.


Definition initializer : M unit :=
  _ <- fetchInfo ;; ret tt.

Definition new (config : list (string * jsval)) : outcome obj * list effect :=
  Base.init names own_ATTRS initializer config.

End DB.

(** ** Y.Couch.Connect *)

Module Connect.

(** [Y.Base.create('couch-base', ...)]: the class is built under the
    name of the base class. *)
Definition NAME : string := "couch-base".
Definition EVENT_ERROR : string := "couch:error".
Definition EVENT_INFO : string := "couch:info".
Definition EVENT_FETCH_ALL : string := "couch:fetchAll".

(** [_baseURISetter]: [val.length] and [val.substring] need a string. *)
Definition _baseURISetter (val : jsval) : M jsval :=
  Y.log "_baseURISetter" "info" "Y.Couch.Connect" ;;
  match val with
  | VStr s =>
      let length := Z.of_nat (String.length s) in
      let lastChar := JS.substring s (length - 1) length in
      if String.eqb lastChar "/"
      then ret (VStr (JS.substring s 0 (length - 1)))
      else ret val
  | VUndefined | VNull =>
      throw "TypeError: cannot read property 'length' of a nullish value"
  | _ => throw "TypeError: val.substring is not a function"
  end.

Definition own_ATTRS : list (string * Y.attr_cfg) :=
  [ ("baseURI",
      {| Y.value := None; Y.valueFn := None; Y.readOnly := false;
         Y.validator := None; Y.setter := Some _baseURISetter |});
    ("databases",
      {| Y.value := Some (VArr []); Y.valueFn := None; Y.readOnly := true;
         Y.validator := None; Y.setter := None |});
    ("info",
      {| Y.value := Some (VObj []); Y.valueFn := None; Y.readOnly := true;
         Y.validator := None; Y.setter := None |}) ].

Definition names : list string :=
  List.map fst Y.Base_ATTRS ++ ["dataSource"] ++ List.map fst own_ATTRS.

Definition ATTRS : list (string * Y.attr_cfg) :=
  Y.Base_ATTRS ++ Base.ATTRS names ++ own_ATTRS.

Definition get := Y.get.
Definition set := Y.set ATTRS.
Definition _set := Y._set ATTRS.

Definition _defFecthAllFn (e : jsval) : M unit :=
  Y.log "_defFecthAllFn" "info" "Y.Couch.Connect" ;;
  _set "databases" (JS.prop e "response").

Definition _defInfoFn (e : jsval) : M unit :=
  Y.log "_defInfoFn" "info" "Y.Couch.Connect" ;;
  _set "info" (JS.prop e "response").

Definition published : list (string * (jsval -> M unit)) :=
  Base.published ++
  [ (EVENT_INFO, _defInfoFn); (EVENT_FETCH_ALL, _defFecthAllFn) ].

Definition fire := Y.fire NAME published.

Definition success (cb : callbacks) (parsed : jsval) : M unit :=
  fire (on_success cb) (VObj [("response", parsed)]).

Definition failure (cb : callbacks) (message : string) : M unit :=
  fire EVENT_ERROR (VObj [("message", VStr (on_failure cb +:+ message))]).

Definition fetchInfo_callbacks : callbacks :=
  {| on_success := EVENT_INFO;
     on_failure := "An error occurred fetching the information: " |}.

Definition fetchInfo (getNew : jsval) : M jsval :=
  Y.log "fetchInfo" "info" "Y.Couch.Connect" ;;
  ds <- Base._getDataSource names getNew ;;
  baseURI <- get "baseURI" ;;
  ds <- DataSource.set_source (negb (JS.strict_eq getNew (VBool true))) ds
          (VStr (JS.to_string baseURI +:+ "/")) ;;
  DataSource.sendRequest ds None (Some fetchInfo_callbacks) ;;
  ret ds.

Definition fetchAllDatabases_callbacks : callbacks :=
  {| on_success := EVENT_FETCH_ALL;
     on_failure := "An error occurred fetching the list of databases: " |}.

Definition fetchAllDatabases (getNew : jsval) : M jsval :=
  Y.log "fetchAllDatabases" "info" "Y.Couch.Connect" ;;
  ds <- Base._getDataSource names getNew ;;
  baseURI <- get "baseURI" ;;
  ds <- DataSource.set_source (negb (JS.strict_eq getNew (VBool true))) ds
          (VStr (JS.to_string baseURI +:+ "/_all_dbs")) ;;
  DataSource.sendRequest ds None (Some fetchAllDatabases_callbacks) ;;
  ret ds.

Definition getDatabase (name : jsval) : M obj :=
  Y.log "getDatabase" "info" "Y.Couch.Connect" ;;
  baseURI <- get "baseURI" ;;
  Base.lift_new (DB.new [("baseURI", baseURI); ("name", name)]).

(** [replicate]: the guard only logs, and only when neither argument is
    a string; the request is built and sent after it in every case, and
    [sendRequest] is given no callback. *)
Definition replicate (source target requestConfig : jsval) : M jsval :=
  Y.log "replicate" "info" "Y.Couch.Connect" ;;
  (if negb (Y.Lang.isString source) && negb (Y.Lang.isString target)
   then Y.log ("Cannot replicate " +:+ JS.to_string source +:+ " to "
               +:+ JS.to_string target +:+ ".") "error" "Y.Couch"
   else ret tt) ;;
  ds <- Base._getDataSource names (VBool true) ;;
  let requestConfig := if JS.truthy requestConfig then requestConfig else VObj [] in
  let requestConfig := Base.set_prop requestConfig "source" source in
  let requestConfig := Base.set_prop requestConfig "target" target in
  baseURI <- get "baseURI" ;;
  ds <- DataSource.set_source false ds
          (VStr (JS.to_string baseURI +:+ "/_replicate")) ;;
  DataSource.sendRequest ds
    (Some {| headers := Base.json_headers; method := "POST";
             data := requestConfig |})
    None ;;
  ret VUndefined.

Definition initializer : M unit :=
  Y.log "initializer" "info" "Y.Couch.Connect" ;;
  _ <- fetchInfo (VBool true) ;; ret tt.

Definition new (config : list (string * jsval)) : outcome obj * list effect :=
  Base.init names own_ATTRS initializer config.

End Connect.


(** * Properties of the classes *)

(** The object a constructor made, for constructors that do not throw. *)
Definition made (x : outcome obj * list effect) : obj :=
  match x.1 with
  | Ret o => o
  | Throw _ => {| attrs := ∅; _uri := "" |}
  end.

(** What [_setAttrVal] leaves in the store for a value that passed the
    validator and the setter. *)
Definition stored (name : string) (v : jsval) (o : obj) : obj :=
  if JS.strict_eq v (Y.stateGet (attrs o) name) && negb (JS.isObject v)
  then o
  else {| attrs := Y.stateAdd (attrs o) name v; _uri := _uri o |}.

(** Sample instances, built through the constructors. *)
Definition conn_x : obj :=
  made (Connect.new [("baseURI", VStr "http://x/")]).

Definition doc_1 : obj :=
  made (Document.new [("baseURI", VStr "http://x"); ("databaseName", VStr "d");
                      ("id", VStr "1")]).

Definition doc_1_opened : obj :=
  object_of (Document.success Document.open_callbacks
               (VObj [("_id", VStr "1"); ("k", VStr "v")]) doc_1).

Definition view_0 : obj := made (View.new []).


(** A string holds a character [encodeURIComponent] rewrites. *)
Fixpoint changed_by_encode (s : string) : bool :=
  match s with
  | EmptyString => false
  | String c rest => negb (JS.unreserved c) || changed_by_encode rest
  end.


(** The HTTP method of a request, when its [cfg] names one. *)
Definition method_of (r : request) : option string :=
  match cfg r with
  | Some c => Some (method c)
  | None => None
  end.

(** What [Connect._baseURISetter] returns for a string. *)
Definition stripped (s : string) : string :=
  if String.eqb
       (JS.substring s (Z.of_nat (String.length s) - 1)
          (Z.of_nat (String.length s))) "/"
  then JS.substring s 0 (Z.of_nat (String.length s) - 1)
  else s.

(** [o'] is [o] with the attribute [name] holding [v], and nothing else
    changed. *)
Definition holds_now (name : string) (v : jsval) (o o' : obj) : Prop :=
  Y.stateGet (attrs o') name = v
  /\ (forall k : string, k <> name ->
        Y.stateGet (attrs o') k = Y.stateGet (attrs o) k)
  /\ _uri o' = _uri o.

(** What a failure callback amounts to: one [couch:error] carrying the
    method's message followed by the transport's, logged once by the
    default handler, on an object left as it was. *)
Definition one_error (cb : callbacks) (message : string) (o : obj)
  : outcome unit * obj * list effect :=
  (Ret tt, o,
   [ Fired "couch:error" (VObj [("message", VStr (on_failure cb +:+ message))]);
     Log "_defErrorFn" "info" "Y.Couch";
     Log (on_failure cb +:+ message) "error" "Y.Couch" ]).

(** The resource paths, as the attributes of the moment spell them. *)
Definition DB_path (o : obj) : string :=
  JS.to_string (Y.stateGet (attrs o) "baseURI") +:+ "/"
  +:+ JS.to_string (Y.stateGet (attrs o) "name") +:+ "/".

Definition Document_path (o : obj) : string :=
  JS.to_string (Y.stateGet (attrs o) "baseURI") +:+ "/"
  +:+ JS.to_string (Y.stateGet (attrs o) "databaseName") +:+ "/"
  +:+ JS.to_string (Y.stateGet (attrs o) "id").

Definition View_path (o : obj) : string :=
  JS.to_string (Y.stateGet (attrs o) "baseURI") +:+ "/_view/"
  +:+ JS.to_string (Y.stateGet (attrs o) "name").

(** The request a fetch hands over: a GET with the JSON content type. *)
Definition GET (url : string) (query : jsval) (cb : callbacks) : request :=
  {| source := VStr url;
     cfg := Some {| headers := [("Content-Type", "application/json")];
                    method := "GET";
                    data := query |};
     callback := Some cb |}.


(** [m] returns normally, leaves [_uri] alone, writes no attribute outside
    [names], requests nothing and fires nothing. *)
Definition frames (names : list string) (m : M unit) : Prop :=
  forall o : obj,
    exists (o' : obj) (l : list effect),
      m o = (Ret tt, o', l)
      /\ _uri o' = _uri o
      /\ (forall k : string, ~ In k names ->
            Y.stateGet (attrs o') k = Y.stateGet (attrs o) k)
      /\ requests_of l = []
      /\ fired_of l = [].

(** A [valueFn] that only computes a value (and may log). *)
Definition computes_only (fn : M jsval) : Prop :=
  forall o : obj,
    exists (v : jsval) (l : list effect),
      fn o = (Ret v, o, l) /\ requests_of l = [] /\ fired_of l = [].

(** An [ATTRS] entry without a setter, whose [valueFn], if any, only
    computes. *)
Definition plain (c : Y.attr_cfg) : Prop :=
  Y.setter c = None
  /\ match Y.valueFn c with
     | Some fn => computes_only fn
     | None => True
     end.

(** The value an attribute starts from, given the constructor's argument
    and the [value] of its [ATTRS] entry: the argument's, unless absent or
    [undefined]. *)
Definition initial (config : list (string * jsval)) (name : string)
    (default : jsval) : jsval :=
  match JS.assoc name config with
  | Some v => if JS.is_undefined v then default else v
  | None => default
  end.

(** One more sample: the Document [http://x/d/1] once its info, with two
    views, has arrived. *)
Definition doc_1_informed : obj :=
  object_of (Document.success Document.fetchInfo_callbacks
               (VObj [("_id", VStr "1");
                      ("views", VObj [("by_name", VObj []); ("by_date", VObj [])])])
               doc_1).

(** Evaluation that leaves the attribute store symbolic. *)
Ltac run := cbv -[Y.stateGet Y.stateAdd Y.stateHas].

(** ** The monad *)

Section Monad.
Context {A B : Type}.
Implicit Types (m : M A) (k : A -> M B).

Lemma bind_Ret m k o a o1 t1 :
  m o = (Ret a, o1, t1) ->
  bind m k o =
  (result_of (k a o1), object_of (k a o1), (t1 ++ trace_of (k a o1))%list).
Proof.
  intros E. unfold bind. rewrite E.
  destruct (k a o1) as [[r o2] t2]. reflexivity.
Qed.

Lemma bind_Throw m k o e o1 t1 :
  m o = (Throw e, o1, t1) -> bind m k o = (Throw e, o1, t1).
Proof. intros E. unfold bind. rewrite E. reflexivity. Qed.

Lemma object_of_eq (r : outcome A) (o : obj) (t : list effect) :
  object_of (r, o, t) = o.
Proof. reflexivity. Qed.

End Monad.

Lemma requests_of_app (t1 t2 : list effect) :
  requests_of (t1 ++ t2) = (requests_of t1 ++ requests_of t2)%list.
Proof. unfold requests_of. apply omap_app. Qed.

Lemma fired_of_app (t1 t2 : list effect) :
  fired_of (t1 ++ t2) = (fired_of t1 ++ fired_of t2)%list.
Proof. unfold fired_of. apply omap_app. Qed.

(** ** The attribute store *)

Lemma stateGet_Some (m : gmap string jsval) k v :
  m !! k = Some v -> Y.stateGet m k = v.
Proof. intros H. unfold Y.stateGet. rewrite H. reflexivity. Qed.

Lemma stateGet_None (m : gmap string jsval) k :
  m !! k = None -> Y.stateGet m k = VUndefined.
Proof. intros H. unfold Y.stateGet. rewrite H. reflexivity. Qed.

Lemma stateHas_Some (m : gmap string jsval) k v :
  m !! k = Some v -> Y.stateHas m k = true.
Proof.
  intros H. unfold Y.stateHas. apply bool_decide_eq_true. rewrite H. eauto.
Qed.

Lemma stateHas_None (m : gmap string jsval) k :
  m !! k = None -> Y.stateHas m k = false.
Proof.
  intros H. unfold Y.stateHas. apply bool_decide_eq_false. rewrite H.
  intros [x Hx]. discriminate.
Qed.

Lemma stateGet_add_eq (m : gmap string jsval) k v :
  Y.stateGet (Y.stateAdd m k v) k = v.
Proof. unfold Y.stateGet, Y.stateAdd. rewrite lookup_insert_eq. reflexivity. Qed.

Lemma stateGet_add_ne (m : gmap string jsval) k k' v :
  k <> k' -> Y.stateGet (Y.stateAdd m k v) k' = Y.stateGet m k'.
Proof.
  intros H. unfold Y.stateGet, Y.stateAdd. rewrite lookup_insert_ne by exact H.
  reflexivity.
Qed.

Lemma strict_eq_sound (a b : jsval) : JS.strict_eq a b = true -> a = b.
Proof.
  destruct a, b; simpl; try discriminate; try reflexivity.
  - intros H. apply Bool.eqb_prop in H. congruence.
  - intros H. apply Z.eqb_eq in H. congruence.
  - intros H. apply String.eqb_eq in H. congruence.
Qed.

Lemma stored_get_eq name v o : Y.stateGet (attrs (stored name v o)) name = v.
Proof.
  unfold stored.
  destruct (JS.strict_eq v (Y.stateGet (attrs o) name)) eqn:E; simpl.
  - destruct (JS.isObject v); simpl.
    + apply stateGet_add_eq.
    + symmetry. apply strict_eq_sound. exact E.
  - apply stateGet_add_eq.
Qed.

Lemma stored_get_ne name k v o :
  name <> k ->
  Y.stateGet (attrs (stored name v o)) k = Y.stateGet (attrs o) k.
Proof.
  intros H. unfold stored.
  destruct (JS.strict_eq v (Y.stateGet (attrs o) name) && negb (JS.isObject v));
    simpl; [reflexivity | apply stateGet_add_ne; exact H].
Qed.

Lemma stored_uri name v o : _uri (stored name v o) = _uri o.
Proof.
  unfold stored.
  destruct (JS.strict_eq v (Y.stateGet (attrs o) name) && negb (JS.isObject v));
    reflexivity.
Qed.

(** ** Values *)

Lemma has_own_prop (d : jsval) (k : string) :
  JS.has_own d k = false -> JS.prop d k = VUndefined.
Proof.
  destruct d; simpl; try reflexivity.
  intros H. apply bool_decide_eq_false in H.
  destruct (JS.assoc k fields) as [v|]; [|reflexivity].
  exfalso. apply H. eauto.
Qed.

Lemma truthy_prop_object (d : jsval) (k : string) :
  JS.truthy (JS.prop d k) = true -> JS.truthy d = true.
Proof. destruct d; simpl; try discriminate; reflexivity. Qed.

(** ** Document.save *)

(** The guard of [save]: with no document data, or data whose [_id] is
    falsy, the method fires [couch:error], answers [null] and sends
    nothing. *)
Lemma save_guarded (o : obj) (options : jsval) :
  negb (JS.truthy (Y.stateGet (attrs o) "data"))
  || negb (JS.truthy (JS.prop (Y.stateGet (attrs o) "data") "_id")) = true ->
  Document.save options o =
  (Ret VNull, o,
   [ Log "save" "info" "Y.Couch.Document";
     Log "_getDataSource" "info" "Y.Couch";
     Log "_newDataSource" "info" "Y.Couch";
     Fired "couch:error"
       (VObj [("message", VStr "No data found on the document to save.")]);
     Log "_defErrorFn" "info" "Y.Couch";
     Log "No data found on the document to save." "error" "Y.Couch" ]).
Proof.
  intros H. destruct o as [m u]. simpl in H.
  cbv -[Y.stateGet Y.stateAdd Y.stateHas JS.truthy JS.prop negb orb].
  rewrite H. reflexivity.
Qed.

(** The request [save] hands over when the guard lets it through and no
    options are given. *)
Lemma save_sends (o : obj) :
  JS.truthy (JS.prop (Y.stateGet (attrs o) "data") "_id") = true ->
  Document.save VUndefined o =
  (Ret (VObj [("source",
               VStr (_uri o +:+ JS.encodeURIComponent
                                  (JS.prop (Y.stateGet (attrs o) "data") "_id")))]),
   o,
   [ Log "save" "info" "Y.Couch.Document";
     Log "_getDataSource" "info" "Y.Couch";
     Log "_newDataSource" "info" "Y.Couch";
     Request
       {| source :=
            VStr (_uri o +:+ JS.encodeURIComponent
                               (JS.prop (Y.stateGet (attrs o) "data") "_id"));
          cfg := Some {| headers := [("Content-Type", "application/json")];
                         method := "PUT";
                         data := Y.stateGet (attrs o) "data" |};
          callback := Some Document.save_callbacks |} ]).
Proof.
  intros H. pose proof (truthy_prop_object _ _ H) as Hd.
  destruct o as [m u]. simpl in H, Hd.
  assert (G : negb (JS.truthy (Y.stateGet m "data"))
              || negb (JS.truthy (JS.prop (Y.stateGet m "data") "_id")) = false)
    by (rewrite H, Hd; reflexivity).
  cbv -[Y.stateGet Y.stateAdd Y.stateHas JS.truthy JS.prop negb orb
        JS.encodeURIComponent String.append].
  rewrite G. reflexivity.
Qed.

(** With options the method reaches [this._queryString], which no class
    defines: it throws before anything is sent. *)
Lemma save_with_options_throws (o : obj) (options : jsval) :
  JS.truthy (JS.prop (Y.stateGet (attrs o) "data") "_id") = true ->
  JS.is_undefined options = false ->
  result_of (Document.save options o)
    = Throw "TypeError: this._queryString is not a function"
  /\ requests_of (trace_of (Document.save options o)) = [].
Proof.
  intros H Ho. pose proof (truthy_prop_object _ _ H) as Hd.
  destruct o as [m u]. simpl in H, Hd.
  assert (G : negb (JS.truthy (Y.stateGet m "data"))
              || negb (JS.truthy (JS.prop (Y.stateGet m "data") "_id")) = false)
    by (rewrite H, Hd; reflexivity).
  cbv -[Y.stateGet Y.stateAdd Y.stateHas JS.truthy JS.prop negb orb
        JS.encodeURIComponent String.append JS.is_undefined].
  rewrite G, Ho. split; reflexivity.
Qed.

(** C6.  A Document whose [data] attribute is absent, or holds a value
    without an [_id] field, answers [save(options)] by firing
    [couch:error] exactly once and returning [null]; no request is handed
    to a data source and the object is left as it was. *)
Theorem save_without_id_fires_error_only (o : obj) (options : jsval) :
  attrs o !! "data" = None
  \/ JS.has_own (Y.stateGet (attrs o) "data") "_id" = false ->
  result_of (Document.save options o) = Ret VNull
  /\ object_of (Document.save options o) = o
  /\ requests_of (trace_of (Document.save options o)) = []
  /\ fired_of (trace_of (Document.save options o))
     = [ ("couch:error",
          VObj [("message", VStr "No data found on the document to save.")]) ].
Proof.
  intros H.
  assert (P : JS.prop (Y.stateGet (attrs o) "data") "_id" = VUndefined).
  { destruct H as [H | H].
    - rewrite (stateGet_None _ _ H). reflexivity.
    - apply has_own_prop. exact H. }
  rewrite save_guarded.
  - repeat split; reflexivity.
  - rewrite P. simpl. apply orb_true_r.
Qed.

(** C6 at work: the Document [http://x/d/1] before any data has arrived,
    saved with options. *)
Lemma save_without_id_witness :
  attrs doc_1 !! "data" = None
  /\ result_of (Document.save (VObj [("batch", VStr "ok")]) doc_1) = Ret VNull
  /\ object_of (Document.save (VObj [("batch", VStr "ok")]) doc_1) = doc_1
  /\ requests_of (trace_of (Document.save (VObj [("batch", VStr "ok")]) doc_1)) = []
  /\ fired_of (trace_of (Document.save (VObj [("batch", VStr "ok")]) doc_1))
     = [ ("couch:error",
          VObj [("message", VStr "No data found on the document to save.")]) ].
Proof.
  split; [vm_compute; reflexivity |].
  apply (save_without_id_fires_error_only doc_1 (VObj [("batch", VStr "ok")])).
  left. vm_compute. reflexivity.
Defined.




(** ** Document.getAllViews *)

(** Whatever the object holds, [getAllViews] never fires [couch:error]
    and never reaches [_defErrorFn]: on the failing branch the type fired
    is [couch-document:EVENT_ERROR], which nothing published. *)
Lemma getAllViews_never_fires_couch_error (o : obj) :
  Forall (fun ev => ev.1 <> "couch:error")
         (fired_of (trace_of (Document.getAllViews o)))
  /\ logged_of "error" (trace_of (Document.getAllViews o)) = [].
Proof.
  destruct o as [m u].
  unfold Document.getAllViews, Document.get, Y.get.
  rewrite (bind_Ret _ _ _ tt {| attrs := m; _uri := u |}
             [Log "fetchAllViews" "info" "Y.Couch.Document"]) by reflexivity.
  rewrite (bind_Ret _ _ _ (Y.stateGet m "info") {| attrs := m; _uri := u |} [])
    by reflexivity.
  destruct (negb (JS.truthy (Y.stateGet m "info"))
            || negb (JS.truthy (JS.prop (Y.stateGet m "info") "views"))).
  - split; [|reflexivity].
    repeat constructor. simpl. discriminate.
  - destruct (JS.prop (Y.stateGet m "info") "views");
      split; try reflexivity; constructor.
Qed.

(** C3, at the failing input: a Document that has not received its info
    yet.  [getAllViews()] returns the empty array, but what it fires is
    [couch-document:EVENT_ERROR]; no [couch:error] is fired and the default
    error handler logs nothing. *)
Theorem getAllViews_without_info_fires_unpublished_event :
  result_of (Document.getAllViews doc_1) = Ret (VArr [])
  /\ fired_of (trace_of (Document.getAllViews doc_1))
     = [ ("couch-document:EVENT_ERROR",
          VObj [("message",
                 VStr "There is no information for this document available.")]) ]
  /\ logged_of "error" (trace_of (Document.getAllViews doc_1)) = [].
Proof.
  assert (E : Document.getAllViews doc_1 =
              (Ret (VArr []), doc_1,
               [ Log "fetchAllViews" "info" "Y.Couch.Document";
                 Fired "couch-document:EVENT_ERROR"
                   (VObj [("message",
                           VStr "There is no information for this document available.")]) ]))
    by (vm_compute; reflexivity).
  rewrite E. repeat split.
Qed.

(** The branch that works: with views in [info], the keys come back. *)
Lemma getAllViews_with_views (o : obj) (info : jsval) (views : list (string * jsval)) :
  attrs o !! "info" = Some info ->
  JS.prop info "views" = VObj views ->
  result_of (Document.getAllViews o)
  = Ret (VArr (List.map (fun kv => VStr kv.1) views))
  /\ fired_of (trace_of (Document.getAllViews o)) = [].
Proof.
  intros Hi Hv. destruct o as [m u]. simpl in Hi.
  pose proof (stateGet_Some _ _ _ Hi) as G.
  assert (T : JS.truthy info = true)
    by (apply (truthy_prop_object info "views"); rewrite Hv; reflexivity).
  cbv -[Y.stateGet Y.stateAdd Y.stateHas JS.truthy JS.prop negb orb List.map].
  rewrite G, Hv, T. split; reflexivity.
Qed.

(** ** View attributes *)

(** A value the validator of an attribute refuses leaves the View as it
    was, silently. *)
Lemma View_boolean_attributes_validated (o : obj) (name : string) (v : jsval) :
  In name ["descending"; "group"; "include_docs"; "inclusive_end"; "reduce"] ->
  Y.Lang.isBoolean v = false ->
  View.set name v o = (Ret tt, o, []).
Proof.
  intros Hn Hv. destruct o as [m u].
  simpl in Hn.
  destruct Hn as [<- | [<- | [<- | [<- | [<- | []]]]]];
    cbv -[Y.stateGet Y.stateAdd Y.stateHas Y.Lang.isBoolean];
    rewrite Hv; destruct (Y.stateHas m _); reflexivity.
Qed.

Lemma View_skip_validated (o : obj) (v : jsval) :
  Y.Lang.isNumber v = false -> View.set "skip" v o = (Ret tt, o, []).
Proof.
  intros Hv. destruct o as [m u].
  cbv -[Y.stateGet Y.stateAdd Y.stateHas Y.Lang.isNumber].
  rewrite Hv. destruct (Y.stateHas m _); reflexivity.
Qed.

Lemma View_stale_validated (o : obj) (v : jsval) :
  v <> VStr "ok" -> v <> VStr "update_after" ->
  View.set "stale" v o = (Ret tt, o, []).
Proof.
  intros H1 H2. destruct o as [m u].
  assert (E : View.stale_validator v = false).
  { unfold View.stale_validator.
    destruct (JS.strict_eq v (VStr "ok")) eqn:A.
    - apply strict_eq_sound in A. contradiction.
    - destruct (JS.strict_eq v (VStr "update_after")) eqn:B; [|reflexivity].
      apply strict_eq_sound in B. contradiction. }
  cbv -[Y.stateGet Y.stateAdd Y.stateHas View.stale_validator].
  rewrite E. destruct (Y.stateHas m _); reflexivity.
Qed.

(** [limit] has no validator: whatever is assigned is stored. *)
Lemma View_limit_unvalidated (o : obj) (v : jsval) :
  View.set "limit" v o = (Ret tt, stored "limit" v o, []).
Proof.
  destruct o as [m u]. unfold stored.
  cbv -[Y.stateGet Y.stateAdd Y.stateHas JS.strict_eq JS.isObject negb andb].
  destruct (Y.stateHas m "limit"); simpl;
    destruct (JS.strict_eq v (Y.stateGet m "limit") && negb (JS.isObject v));
    reflexivity.
Qed.

(** C5, at the failing input: on a fresh View, [set('limit', 'abc')] is
    accepted and read back, where the same assignment to [skip] is
    refused and leaves the default [0]. *)
Theorem View_limit_accepts_a_string :
  Y.stateGet (attrs (object_of (View.set "limit" (VStr "abc") view_0))) "limit"
  = VStr "abc"
  /\ Y.stateGet (attrs (object_of (View.set "skip" (VStr "abc") view_0))) "skip"
     = VNum 0.
Proof.
  split.
  - rewrite View_limit_unvalidated. apply stored_get_eq.
  - rewrite View_skip_validated by reflexivity. vm_compute. reflexivity.
Qed.

(** ** Connect.replicate *)

(** [replicate] always hands one POST to a data source, fires nothing and
    returns [undefined], whatever its arguments are. *)
Lemma replicate_always_posts (o : obj) (source target requestConfig : jsval) :
  result_of (Connect.replicate source target requestConfig o) = Ret VUndefined
  /\ object_of (Connect.replicate source target requestConfig o) = o
  /\ fired_of (trace_of (Connect.replicate source target requestConfig o)) = []
  /\ List.map (fun r => (method_of r, callback r))
       (requests_of (trace_of (Connect.replicate source target requestConfig o)))
     = [ (Some "POST", None) ].
Proof.
  destruct o as [m u].
  unfold Connect.replicate.
  destruct (negb (Y.Lang.isString source) && negb (Y.Lang.isString target));
    repeat split.
Qed.

(** C8, at the failing input: [replicate(5, "http://t/db")] on a Connect.
    One argument is not a string, yet nothing is logged as an error and
    the POST to [_replicate] goes out with the number as its source; with
    two non-strings the error is logged and the POST goes out all the
    same. *)
Theorem replicate_non_string_source_still_posts :
  logged_of "error"
    (trace_of (Connect.replicate (VNum 5) (VStr "http://t/db") VUndefined conn_x))
  = []
  /\ requests_of
       (trace_of (Connect.replicate (VNum 5) (VStr "http://t/db") VUndefined conn_x))
     = [ {| source := VStr "http://x/_replicate";
            cfg := Some {| headers := [("Content-Type", "application/json")];
                           method := "POST";
                           data := VObj [("source", VNum 5);
                                         ("target", VStr "http://t/db")] |};
            callback := None |} ]
  /\ logged_of "error"
       (trace_of (Connect.replicate (VNum 5) VNull VUndefined conn_x))
     = [ "Cannot replicate 5 to null." ]
  /\ List.map source
       (requests_of (trace_of (Connect.replicate (VNum 5) VNull VUndefined conn_x)))
     = [ VStr "http://x/_replicate" ].
Proof.
  assert (B : Y.stateGet (attrs conn_x) "baseURI" = VStr "http://x")
    by (vm_compute; reflexivity).
  destruct conn_x as [m u]. simpl in B.
  run. rewrite B.
  repeat split.
Qed.

(** ** Default handlers of the fetch events *)

(** What [_set] does to an attribute that has neither validator nor
    setter: the value is stored, [readOnly] or not. *)
Lemma Connect_info_stored (o : obj) (parsed : jsval) :
  Connect.success Connect.fetchInfo_callbacks parsed o =
  (Ret tt, stored "info" parsed o,
   [ Fired "couch:info" (VObj [("response", parsed)]);
     Log "_defInfoFn" "info" "Y.Couch.Connect" ]).
Proof.
  destruct o as [m u]. unfold stored.
  cbv -[Y.stateGet Y.stateAdd Y.stateHas JS.strict_eq JS.isObject negb andb].
  destruct (Y.stateHas m "info"); simpl;
    destruct (JS.strict_eq parsed (Y.stateGet m "info") && negb (JS.isObject parsed));
    reflexivity.
Qed.

Lemma Connect_databases_stored (o : obj) (parsed : jsval) :
  Connect.success Connect.fetchAllDatabases_callbacks parsed o =
  (Ret tt, stored "databases" parsed o,
   [ Fired "couch:fetchAll" (VObj [("response", parsed)]);
     Log "_defFecthAllFn" "info" "Y.Couch.Connect" ]).
Proof.
  destruct o as [m u]. unfold stored.
  cbv -[Y.stateGet Y.stateAdd Y.stateHas JS.strict_eq JS.isObject negb andb].
  destruct (Y.stateHas m "databases"); simpl;
    destruct (JS.strict_eq parsed (Y.stateGet m "databases")
              && negb (JS.isObject parsed));
    reflexivity.
Qed.

Lemma DB_info_stored (o : obj) (parsed : jsval) :
  DB.success DB.fetchInfo_callbacks parsed o =
  (Ret tt, stored "info" parsed o,
   [ Fired "couch:info" (VObj [("response", parsed)]);
     Log "_defInfoFn" "info" "Y.Couch.DB" ]).
Proof.
  destruct o as [m u]. unfold stored.
  cbv -[Y.stateGet Y.stateAdd Y.stateHas JS.strict_eq JS.isObject negb andb].
  destruct (Y.stateHas m "info"); simpl;
    destruct (JS.strict_eq parsed (Y.stateGet m "info") && negb (JS.isObject parsed));
    reflexivity.
Qed.

Lemma DB_documents_stored (o : obj) (parsed : jsval) :
  DB.success DB.fetchAllDocuments_callbacks parsed o =
  (Ret tt, stored "documents" parsed o,
   [ Fired "couch:fetchAll" (VObj [("response", parsed)]);
     Log "_defFecthAllFn" "info" "Y.Couch.DB" ]).
Proof.
  destruct o as [m u]. unfold stored.
  cbv -[Y.stateGet Y.stateAdd Y.stateHas JS.strict_eq JS.isObject negb andb].
  destruct (Y.stateHas m "documents"); simpl;
    destruct (JS.strict_eq parsed (Y.stateGet m "documents")
              && negb (JS.isObject parsed));
    reflexivity.
Qed.

Lemma Document_data_stored (o : obj) (parsed : jsval) :
  Document.success Document.open_callbacks parsed o =
  (Ret tt, stored "data" parsed o,
   [ Fired "couch:opened" (VObj [("response", parsed)]);
     Log "_defOpenedFn" "info" "Y.Couch.Document" ]).
Proof.
  destruct o as [m u]. unfold stored.
  cbv -[Y.stateGet Y.stateAdd Y.stateHas JS.strict_eq JS.isObject negb andb].
  destruct (Y.stateHas m "data"); simpl;
    destruct (JS.strict_eq parsed (Y.stateGet m "data") && negb (JS.isObject parsed));
    reflexivity.
Qed.

Lemma View_data_stored (o : obj) (parsed : jsval) :
  View.success View.fetchData_callbacks parsed o =
  (Ret tt, stored "data" parsed o,
   [ Fired "couch:data" (VObj [("response", parsed)]);
     Log "_defDataFn" "info" "Y.Couch.View" ]).
Proof.
  destruct o as [m u]. unfold stored.
  cbv -[Y.stateGet Y.stateAdd Y.stateHas JS.strict_eq JS.isObject negb andb].
  destruct (Y.stateHas m "data"); simpl;
    destruct (JS.strict_eq parsed (Y.stateGet m "data") && negb (JS.isObject parsed));
    reflexivity.
Qed.

(** The Document's [_defInfoFn] goes through the public [set], and [info]
    is [readOnly]: once the attribute holds a value the handler changes
    nothing. *)
Lemma Document_info_frozen (o : obj) (parsed : jsval) :
  Y.stateHas (attrs o) "info" = true ->
  Document.success Document.fetchInfo_callbacks parsed o =
  (Ret tt, o,
   [ Fired "couch:info" (VObj [("response", parsed)]);
     Log "_defInfoFn" "info" "Y.Couch.Document" ]).
Proof.
  intros H. destruct o as [m u]. simpl in H.
  run. rewrite H. reflexivity.
Qed.

Lemma Document_info_first (o : obj) (parsed : jsval) :
  Y.stateHas (attrs o) "info" = false ->
  Document.success Document.fetchInfo_callbacks parsed o =
  (Ret tt, stored "info" parsed o,
   [ Fired "couch:info" (VObj [("response", parsed)]);
     Log "_defInfoFn" "info" "Y.Couch.Document" ]).
Proof.
  intros H. destruct o as [m u]. simpl in H. unfold stored.
  cbv -[Y.stateGet Y.stateAdd Y.stateHas JS.strict_eq JS.isObject negb andb].
  rewrite H. simpl.
  destruct (JS.strict_eq parsed (Y.stateGet m "info") && negb (JS.isObject parsed));
    reflexivity.
Qed.

(** C1, at the failing input: a Document whose info request succeeds
    twice, first with [{"rev": 1}] and then with [{"rev": 2}].  Each
    success fires [couch:info] with the parsed body, but after the second
    one the [info] attribute still holds the first body. *)
Theorem Document_second_info_is_not_stored :
  fired_of
    (trace_of
       (Document.success Document.fetchInfo_callbacks (VObj [("rev", VNum 2)])
          (object_of
             (Document.success Document.fetchInfo_callbacks
                (VObj [("rev", VNum 1)]) doc_1))))
  = [ ("couch:info", VObj [("response", VObj [("rev", VNum 2)])]) ]
  /\ Y.stateGet
       (attrs
          (object_of
             (Document.success Document.fetchInfo_callbacks (VObj [("rev", VNum 2)])
                (object_of
                   (Document.success Document.fetchInfo_callbacks
                      (VObj [("rev", VNum 1)]) doc_1))))) "info"
     = VObj [("rev", VNum 1)].
Proof.
  rewrite (Document_info_first doc_1) by (vm_compute; reflexivity).
  rewrite object_of_eq.
  rewrite Document_info_frozen.
  - split; [reflexivity | apply stored_get_eq].
  - unfold stored. simpl. unfold Y.stateHas, Y.stateAdd.
    apply bool_decide_eq_true. rewrite lookup_insert_eq. eauto.
Qed.

(** ** Setters that rebuild [_uri] *)

Ltac run_setter :=
  cbv -[Y.stateGet Y.stateAdd Y.stateHas JS.encodeURIComponent String.append
        JS.to_string JS.strict_eq JS.isObject].

Ltac split_store :=
  match goal with
  | |- context [JS.strict_eq ?a ?b] =>
      destruct (JS.strict_eq a b);
      [ match goal with
        | |- context [JS.isObject ?v] => destruct (JS.isObject v)
        end | ]
  end.

Lemma DB_set_baseURI (o : obj) (v : jsval) :
  DB.set "baseURI" v o =
  (Ret tt,
   stored "baseURI" v
     {| attrs := attrs o;
        _uri := JS.to_string v +:+ "/"
                +:+ JS.to_string (Y.stateGet (attrs o) "name") +:+ "/" |},
   [ Log "_baseURISetter" "info" "Y.Couch.DB" ]).
Proof.
  destruct o as [m u].
  unfold stored.
  destruct v; run_setter; destruct (Y.stateHas m "baseURI");
    split_store; reflexivity.
Qed.

Lemma DB_set_name (o : obj) (v : jsval) :
  DB.set "name" v o =
  (Ret tt,
   stored "name" v
     {| attrs := attrs o;
        _uri := JS.to_string (Y.stateGet (attrs o) "baseURI") +:+ "/"
                +:+ JS.to_string v +:+ "/" |},
   [ Log "_nameSetter" "info" "Y.Couch.DB" ]).
Proof.
  destruct o as [m u].
  unfold stored.
  destruct v; run_setter; destruct (Y.stateHas m "name");
    split_store; reflexivity.
Qed.

(** C9.  Assigning [baseURI] and [name] of a DB, in either order, leaves
    the resource path [_uri] equal to [baseURI + "/" + name + "/"]; both
    assignments return normally and both values are held. *)
Theorem DB_uri_after_both_assignments (o : obj) (baseURI name : string) :
  (result_of ((DB.set "baseURI" (VStr baseURI) ;; DB.set "name" (VStr name)) o)
   = Ret tt
   /\ _uri (object_of
              ((DB.set "baseURI" (VStr baseURI) ;; DB.set "name" (VStr name)) o))
      = baseURI +:+ "/" +:+ name +:+ "/")
  /\ (result_of ((DB.set "name" (VStr name) ;; DB.set "baseURI" (VStr baseURI)) o)
      = Ret tt
      /\ _uri (object_of
                 ((DB.set "name" (VStr name) ;; DB.set "baseURI" (VStr baseURI)) o))
         = baseURI +:+ "/" +:+ name +:+ "/").
Proof.
  split.
  - rewrite (bind_Ret _ _ _ _ _ _ (DB_set_baseURI o (VStr baseURI))).
    rewrite DB_set_name. cbn [result_of object_of fst snd].
    split; [reflexivity |].
    rewrite stored_uri. cbn [_uri attrs].
    rewrite stored_get_eq. reflexivity.
  - rewrite (bind_Ret _ _ _ _ _ _ (DB_set_name o (VStr name))).
    rewrite DB_set_baseURI. cbn [result_of object_of fst snd].
    split; [reflexivity |].
    rewrite stored_uri. cbn [_uri attrs].
    rewrite stored_get_eq. reflexivity.
Qed.

Lemma Document_set_id (o : obj) (v : jsval) :
  Document.set "id" v o =
  (Ret tt,
   stored "id" (VStr (JS.encodeURIComponent v))
     {| attrs := attrs o;
        _uri := JS.to_string (Y.stateGet (attrs o) "baseURI") +:+ "/"
                +:+ JS.to_string (Y.stateGet (attrs o) "databaseName") +:+ "/"
                +:+ JS.encodeURIComponent v |},
   [ Log "_idSetter" "info" "Y.Couch.Document" ]).
Proof.
  destruct o as [m u].
  unfold stored. run_setter.
  destruct (Y.stateHas m "id");
    split_store; reflexivity.
Qed.

(** ** encodeURIComponent *)

Lemma append_cancel_l (p a b : string) : p +:+ a = p +:+ b -> a = b.
Proof.
  induction p as [|c p IH]; simpl; intros H; [exact H |].
  apply IH. injection H as H. exact H.
Qed.

Lemma length_append (a b : string) :
  String.length (a +:+ b) = (String.length a + String.length b)%nat.
Proof. induction a as [|c a IH]; simpl; [reflexivity | rewrite IH; reflexivity]. Qed.

Lemma length_encode (s : string) :
  (String.length s <= String.length (JS.encode s))%nat
  /\ (changed_by_encode s = true ->
      (String.length s < String.length (JS.encode s))%nat).
Proof.
  induction s as [|c s [IH1 IH2]]; simpl.
  - split; [lia | discriminate].
  - destruct (JS.unreserved c); unfold JS.escape_char;
      rewrite length_append; simpl.
    + split; [lia |]. intros H. apply IH2 in H. lia.
    + split; lia.
Qed.

Lemma encode_changes (s : string) :
  changed_by_encode s = true -> JS.encode s <> s.
Proof.
  intros H E. apply length_encode in H. rewrite E in H. lia.
Qed.

Lemma encode_stays_changed (s : string) :
  changed_by_encode s = true -> changed_by_encode (JS.encode s) = true.
Proof.
  induction s as [|c s IH]; [discriminate |].
  simpl. destruct (JS.unreserved c) eqn:U; unfold JS.escape_char.
  - intros H.
    change (changed_by_encode (String c (JS.encode s)) = true).
    simpl. rewrite U. simpl. apply IH. exact H.
  - reflexivity.
Qed.

Lemma strict_eq_refl_string (s : string) : JS.strict_eq (VStr s) (VStr s) = true.
Proof. simpl. apply String.eqb_refl. Qed.

Lemma stored_same (name : string) (s : string) (o : obj) :
  Y.stateGet (attrs o) name = VStr s -> stored name (VStr s) o = o.
Proof.
  intros H. unfold stored. rewrite H, strict_eq_refl_string. reflexivity.
Qed.

(** The object after [set('id', v)]. *)
Lemma Document_id_assigned (o : obj) (v : jsval) :
  Y.stateGet (attrs (object_of (Document.set "id" v o))) "id"
  = VStr (JS.encodeURIComponent v)
  /\ Y.stateGet (attrs (object_of (Document.set "id" v o))) "baseURI"
     = Y.stateGet (attrs o) "baseURI"
  /\ Y.stateGet (attrs (object_of (Document.set "id" v o))) "databaseName"
     = Y.stateGet (attrs o) "databaseName"
  /\ _uri (object_of (Document.set "id" v o))
     = JS.to_string (Y.stateGet (attrs o) "baseURI") +:+ "/"
       +:+ JS.to_string (Y.stateGet (attrs o) "databaseName") +:+ "/"
       +:+ JS.encodeURIComponent v.
Proof.
  rewrite Document_set_id, object_of_eq.
  split; [apply stored_get_eq |].
  split; [rewrite stored_get_ne by discriminate; reflexivity |].
  split; [rewrite stored_get_ne by discriminate; reflexivity |].
  rewrite stored_uri. reflexivity.
Qed.

(** C10, as stated, fails: [a/b] contains a character that
    [encodeURIComponent] rewrites, and assigning it a second time leaves
    the Document exactly as the first assignment left it. *)
Lemma id_assigned_twice_changes_nothing :
  JS.encode "a/b" <> "a/b"
  /\ object_of (Document.set "id" (VStr "a/b")
                  (object_of (Document.set "id" (VStr "a/b") doc_1)))
     = object_of (Document.set "id" (VStr "a/b") doc_1).
Proof.
  split; [vm_compute; discriminate |].
  vm_compute. reflexivity.
Qed.

(** C10, amended.  The id setter stores [encodeURIComponent] of what is
    assigned, so [id] reads back encoded and [_uri] ends in the encoded
    form.  Assigning the same id again changes nothing: the setter encodes
    its argument, not the stored value.  Assigning the value read back
    from [id] is what double-encodes: for an id with a character that
    [encodeURIComponent] rewrites, the stored id and [_uri] both change.
    [save] builds its URL from [_uri] followed by
    [encodeURIComponent(data._id)]. *)
Theorem Document_id_encoded_once_per_assignment (o : obj) (id : string) :
  let o1 := object_of (Document.set "id" (VStr id) o) in
  let o2 := object_of (Document.set "id" (Y.stateGet (attrs o1) "id") o1) in
  (Y.stateGet (attrs o1) "id" = VStr (JS.encode id)
   /\ _uri o1
      = JS.to_string (Y.stateGet (attrs o) "baseURI") +:+ "/"
        +:+ JS.to_string (Y.stateGet (attrs o) "databaseName") +:+ "/"
        +:+ JS.encode id)
  /\ object_of (Document.set "id" (VStr id) o1) = o1
  /\ (changed_by_encode id = true ->
      Y.stateGet (attrs o2) "id" = VStr (JS.encode (JS.encode id))
      /\ Y.stateGet (attrs o2) "id" <> Y.stateGet (attrs o1) "id"
      /\ _uri o2 <> _uri o1)
  /\ (forall d : obj,
        JS.truthy (JS.prop (Y.stateGet (attrs d) "data") "_id") = true ->
        List.map source (requests_of (trace_of (Document.save VUndefined d)))
        = [ VStr (_uri d +:+ JS.encodeURIComponent
                               (JS.prop (Y.stateGet (attrs d) "data") "_id")) ]).
Proof.
  intros o1 o2.
  destruct (Document_id_assigned o (VStr id)) as (Hid & Hb & Hd & Hu).
  fold o1 in Hid, Hb, Hd, Hu.
  change (JS.encodeURIComponent (VStr id)) with (JS.encode id) in Hid, Hu.
  split; [split; assumption |].
  split.
  { rewrite Document_set_id, object_of_eq.
    change (JS.encodeURIComponent (VStr id)) with (JS.encode id).
    rewrite stored_same by exact Hid.
    rewrite Hb, Hd, <- Hu. destruct o1; reflexivity. }
  split.
  { intros Hc.
    destruct (Document_id_assigned o1 (Y.stateGet (attrs o1) "id"))
      as (Hid2 & _ & _ & Hu2).
    fold o2 in Hid2, Hu2. rewrite Hid in Hid2, Hu2.
    change (JS.encodeURIComponent (VStr (JS.encode id)))
      with (JS.encode (JS.encode id)) in Hid2, Hu2.
    pose proof (encode_changes _ (encode_stays_changed _ Hc)) as Hne.
    split; [exact Hid2 |].
    split.
    - rewrite Hid2, Hid. intros E. apply Hne. congruence.
    - rewrite Hu2, Hu, Hb, Hd. intros E.
      do 4 apply append_cancel_l in E.
      apply Hne. exact E. }
  intros d Hd'. rewrite (save_sends d Hd'). reflexivity.
Qed.

(** ** Connect.getDatabase *)

Lemma getDatabase_run (c : obj) (name : jsval) :
  Connect.getDatabase name c =
  ((DB.new [("baseURI", Y.stateGet (attrs c) "baseURI"); ("name", name)]).1,
   c,
   Log "getDatabase" "info" "Y.Couch.Connect"
     :: (DB.new [("baseURI", Y.stateGet (attrs c) "baseURI"); ("name", name)]).2).
Proof.
  destruct c as [m u].
  cbv -[Y.stateGet Y.stateAdd Y.stateHas DB.new].
  destruct (DB.new _) as [r t]. destruct r; reflexivity.
Qed.

(** The constructor of DB, given two strings: both are held, [_uri] is
    built from both, and the [fetchInfo] of the initializer has gone out. *)
Lemma DB_new_run (baseURI name : string) :
  exists db : obj,
    (DB.new [("baseURI", VStr baseURI); ("name", VStr name)]).1 = Ret db
    /\ Y.stateGet (attrs db) "baseURI" = VStr baseURI
    /\ Y.stateGet (attrs db) "name" = VStr name
    /\ _uri db = baseURI +:+ "/" +:+ name +:+ "/"
    /\ requests_of (DB.new [("baseURI", VStr baseURI); ("name", VStr name)]).2
       = [ {| source := VStr (baseURI +:+ "/" +:+ name +:+ "/");
              cfg := Some {| headers := [("Content-Type", "application/json")];
                             method := "GET";
                             data := VUndefined |};
              callback := Some DB.fetchInfo_callbacks |} ].
Proof.
  eexists. split; [vm_compute; reflexivity |].
  repeat split; vm_compute; reflexivity.
Qed.

(** C7, as stated, fails: [getDatabase("d")] on the Connect of
    [http://x/] does issue a request, the GET of the new database's info. *)
Lemma getDatabase_issues_a_request :
  List.map source
    (requests_of (trace_of (Connect.getDatabase (VStr "d") conn_x)))
  = [ VStr "http://x/d/" ]
  /\ requests_of (trace_of (Connect.getDatabase (VStr "d") conn_x)) <> [].
Proof. split; [vm_compute; reflexivity | vm_compute; discriminate]. Qed.

(** C7, amended.  On a Connect whose [baseURI] is a string,
    [getDatabase(name)] returns a new DB whose [baseURI] is the Connect's
    and whose [name] is the one given; the Connect itself is unchanged; and
    building the DB issues exactly one request, the GET of
    [baseURI/name/] that the DB's initializer makes through [fetchInfo]. *)
Theorem getDatabase_returns_db_and_fetches_its_info
    (c : obj) (baseURI name : string) :
  attrs c !! "baseURI" = Some (VStr baseURI) ->
  exists db : obj,
    result_of (Connect.getDatabase (VStr name) c) = Ret db
    /\ object_of (Connect.getDatabase (VStr name) c) = c
    /\ Y.stateGet (attrs db) "baseURI" = Y.stateGet (attrs c) "baseURI"
    /\ Y.stateGet (attrs db) "name" = VStr name
    /\ _uri db = baseURI +:+ "/" +:+ name +:+ "/"
    /\ requests_of (trace_of (Connect.getDatabase (VStr name) c))
       = [ {| source := VStr (baseURI +:+ "/" +:+ name +:+ "/");
              cfg := Some {| headers := [("Content-Type", "application/json")];
                             method := "GET";
                             data := VUndefined |};
              callback := Some DB.fetchInfo_callbacks |} ].
Proof.
  intros H. pose proof (stateGet_Some _ _ _ H) as G.
  destruct (DB_new_run baseURI name) as (db & E & Hb & Hn & Hu & Hr).
  exists db. rewrite getDatabase_run, G.
  unfold result_of, object_of, trace_of. cbn [fst snd].
  repeat split; assumption.
Qed.

(** The amended C7 at work on the Connect of [http://x/]. *)
Lemma getDatabase_witness :
  attrs conn_x !! "baseURI" = Some (VStr "http://x")
  /\ exists db : obj,
       result_of (Connect.getDatabase (VStr "d") conn_x) = Ret db
       /\ object_of (Connect.getDatabase (VStr "d") conn_x) = conn_x
       /\ Y.stateGet (attrs db) "baseURI" = Y.stateGet (attrs conn_x) "baseURI"
       /\ Y.stateGet (attrs db) "name" = VStr "d"
       /\ _uri db = "http://x/d/"
       /\ requests_of (trace_of (Connect.getDatabase (VStr "d") conn_x))
          = [ {| source := VStr "http://x/d/";
                 cfg := Some {| headers := [("Content-Type", "application/json")];
                                method := "GET";
                                data := VUndefined |};
                 callback := Some DB.fetchInfo_callbacks |} ].
Proof.
  split; [vm_compute; reflexivity |].
  apply (getDatabase_returns_db_and_fetches_its_info conn_x "http://x" "d").
  vm_compute. reflexivity.
Defined.

(** ** View.fetchData *)










Lemma fetchData_run (o : obj) :
  View.fetchData o =
  (Ret (VObj [("source", VStr (_uri o))]), o,
   [ Log "fetchData" "info" "Y.Couch.Document";
     Log "_getDataSource" "info" "Y.Couch";
     Log "_newDataSource" "info" "Y.Couch";
     Request
       {| source := VStr (_uri o);
          cfg := Some {| headers := [("Content-Type", "application/json")];
                         method := "GET";
                         data :=
                           VObj (View.clean
                                   (List.map (fun k => (k, Y.stateGet (attrs o) k))
                                             View.names)) |};
          callback := Some View.fetchData_callbacks |} ]).
Proof.
  destruct o as [m u].
  cbv -[Y.stateGet Y.stateAdd Y.stateHas View.clean]. reflexivity.
Qed.


Lemma stringify_is_old_after_override (obj : jsval) (name : option string) :
  QueryString.stringify obj name
  = QueryString._oldStringify QueryString.stringify (QueryString.override obj) name.
Proof. destruct obj as [| | [|] | | | | |]; reflexivity. Qed.



(** * Further properties of the classes *)

(** * Further properties *)

(** ** Connect: the base URI and the two fetches *)

Lemma substring_whole (s t : string) :
  String.substring 0 (String.length s) (s +:+ t) = s.
Proof.
  induction s as [|c s IH]; simpl.
  - destruct t; reflexivity.
  - cbn. f_equal. exact IH.
Qed.

Lemma substring_tail (s : string) (c : ascii) :
  String.substring (String.length s) 1 (s +:+ String c "") = String c "".
Proof. induction s as [|c' s IH]; simpl; [reflexivity | exact IH]. Qed.

Lemma stripped_slash (s : string) : stripped (s +:+ "/") = s.
Proof.
  unfold stripped, JS.substring. rewrite length_append. simpl String.length.
  replace (Z.min (Z.max 0 (Z.min (Z.of_nat (String.length s + 1) - 1)
                              (Z.of_nat (String.length s + 1))))
                 (Z.max 0 (Z.min (Z.of_nat (String.length s + 1))
                              (Z.of_nat (String.length s + 1)))))
    with (Z.of_nat (String.length s)) by lia.
  replace (Z.max (Z.max 0 (Z.min (Z.of_nat (String.length s + 1) - 1)
                              (Z.of_nat (String.length s + 1))))
                 (Z.max 0 (Z.min (Z.of_nat (String.length s + 1))
                              (Z.of_nat (String.length s + 1))))
           - Z.of_nat (String.length s))
    with 1 by lia.
  rewrite Nat2Z.id. change (Z.to_nat 1) with 1%nat.
  rewrite (substring_tail s "/"). simpl String.eqb.
  replace (Z.min (Z.max 0 (Z.min 0 (Z.of_nat (String.length s + 1))))
                 (Z.max 0 (Z.min (Z.of_nat (String.length s + 1) - 1)
                              (Z.of_nat (String.length s + 1)))))
    with 0 by lia.
  replace (Z.max (Z.max 0 (Z.min 0 (Z.of_nat (String.length s + 1))))
                 (Z.max 0 (Z.min (Z.of_nat (String.length s + 1) - 1)
                              (Z.of_nat (String.length s + 1))))
           - 0)
    with (Z.of_nat (String.length s)) by lia.
  rewrite Nat2Z.id. change (Z.to_nat 0) with 0%nat.
  apply (substring_whole s "/").
Qed.

Lemma stripped_other (s : string) (c : ascii) :
  c <> "/"%char -> stripped (s +:+ String c "") = s +:+ String c "".
Proof.
  intros Hc. unfold stripped, JS.substring. rewrite length_append.
  simpl String.length.
  replace (Z.min (Z.max 0 (Z.min (Z.of_nat (String.length s + 1) - 1)
                              (Z.of_nat (String.length s + 1))))
                 (Z.max 0 (Z.min (Z.of_nat (String.length s + 1))
                              (Z.of_nat (String.length s + 1)))))
    with (Z.of_nat (String.length s)) by lia.
  replace (Z.max (Z.max 0 (Z.min (Z.of_nat (String.length s + 1) - 1)
                              (Z.of_nat (String.length s + 1))))
                 (Z.max 0 (Z.min (Z.of_nat (String.length s + 1))
                              (Z.of_nat (String.length s + 1))))
           - Z.of_nat (String.length s))
    with 1 by lia.
  rewrite Nat2Z.id. change (Z.to_nat 1) with 1%nat.
  rewrite (substring_tail s c).
  destruct (String.eqb (String c "") "/") eqn:E; [| reflexivity].
  apply String.eqb_eq in E. congruence.
Qed.

Lemma Connect_baseURISetter_string (s : string) (o : obj) :
  Connect._baseURISetter (VStr s) o =
  (Ret (VStr (stripped s)), o, [ Log "_baseURISetter" "info" "Y.Couch.Connect" ]).
Proof.
  unfold Connect._baseURISetter, stripped.
  rewrite (bind_Ret _ _ _ tt o [Log "_baseURISetter" "info" "Y.Couch.Connect"])
    by reflexivity.
  destruct (String.eqb _ "/"); reflexivity.
Qed.

Lemma Connect_set_baseURI (o : obj) (s : string) :
  Connect.set "baseURI" (VStr s) o =
  (Ret tt, stored "baseURI" (VStr (stripped s)) o,
   [ Log "_baseURISetter" "info" "Y.Couch.Connect" ]).
Proof.
  destruct o as [m u]. unfold stored.
  cbv -[Y.stateGet Y.stateAdd Y.stateHas Connect._baseURISetter stripped
        JS.strict_eq JS.isObject].
  destruct (Y.stateHas m "baseURI");
    rewrite Connect_baseURISetter_string;
    cbv -[Y.stateGet Y.stateAdd Y.stateHas stripped JS.strict_eq JS.isObject];
    split_store; reflexivity.
Qed.

Lemma Connect_set_baseURI_not_a_string (o : obj) (v : jsval) :
  Y.Lang.isString v = false ->
  exists e : string,
    Connect.set "baseURI" v o =
    (Throw e, o, [ Log "_baseURISetter" "info" "Y.Couch.Connect" ]).
Proof.
  intros H. destruct o as [m u].
  destruct v; try discriminate H;
    eexists; cbv -[Y.stateGet Y.stateAdd Y.stateHas];
    destruct (Y.stateHas m "baseURI"); reflexivity.
Qed.

Lemma Connect_fetchInfo_run (o : obj) :
  Connect.fetchInfo (VBool true) o =
  (Ret (VObj [("source",
               VStr (JS.to_string (Y.stateGet (attrs o) "baseURI") +:+ "/"))]),
   o,
   [ Log "fetchInfo" "info" "Y.Couch.Connect";
     Log "_getDataSource" "info" "Y.Couch";
     Log "_newDataSource" "info" "Y.Couch";
     Request
       {| source := VStr (JS.to_string (Y.stateGet (attrs o) "baseURI") +:+ "/");
          cfg := None;
          callback := Some Connect.fetchInfo_callbacks |} ]).
Proof.
  destruct o as [m u].
  cbv -[Y.stateGet Y.stateAdd Y.stateHas JS.to_string String.append].
  reflexivity.
Qed.

Lemma Connect_fetchAllDatabases_run (o : obj) :
  Connect.fetchAllDatabases (VBool true) o =
  (Ret (VObj [("source",
               VStr (JS.to_string (Y.stateGet (attrs o) "baseURI")
                     +:+ "/_all_dbs"))]),
   o,
   [ Log "fetchAllDatabases" "info" "Y.Couch.Connect";
     Log "_getDataSource" "info" "Y.Couch";
     Log "_newDataSource" "info" "Y.Couch";
     Request
       {| source := VStr (JS.to_string (Y.stateGet (attrs o) "baseURI")
                          +:+ "/_all_dbs");
          cfg := None;
          callback := Some Connect.fetchAllDatabases_callbacks |} ]).
Proof.
  destruct o as [m u].
  cbv -[Y.stateGet Y.stateAdd Y.stateHas JS.to_string String.append].
  reflexivity.
Qed.

(** X1.  Assigning a string to the [baseURI] of a Connect stores it with
    one trailing slash removed: [s/] is held as [s] (so [s//] as [s/]), a
    string that ends in any other character is held as it is, and so is
    the empty string. *)
Theorem Connect_baseURI_loses_one_trailing_slash (o : obj) (s : string) (c : ascii) :
  Y.stateGet (attrs (object_of (Connect.set "baseURI" (VStr (s +:+ "/")) o)))
    "baseURI" = VStr s
  /\ (c <> "/"%char ->
      Y.stateGet
        (attrs (object_of (Connect.set "baseURI" (VStr (s +:+ String c "")) o)))
        "baseURI" = VStr (s +:+ String c ""))
  /\ Y.stateGet (attrs (object_of (Connect.set "baseURI" (VStr "") o))) "baseURI"
     = VStr "".
Proof.
  split; [| split].
  - rewrite Connect_set_baseURI, object_of_eq, stored_get_eq, stripped_slash.
    reflexivity.
  - intros Hc.
    rewrite Connect_set_baseURI, object_of_eq, stored_get_eq, stripped_other
      by exact Hc.
    reflexivity.
  - rewrite Connect_set_baseURI, object_of_eq, stored_get_eq. reflexivity.
Qed.

(** X2.  Assigning anything but a string to the [baseURI] of a Connect
    throws out of the setter ([val.length], [val.substring]); the Connect
    keeps the value it had and its other state. *)
Theorem Connect_baseURI_must_be_a_string (o : obj) (v : jsval) :
  Y.Lang.isString v = false ->
  (exists e : string, result_of (Connect.set "baseURI" v o) = Throw e)
  /\ object_of (Connect.set "baseURI" v o) = o.
Proof.
  intros H. destruct (Connect_set_baseURI_not_a_string o v H) as [e E].
  rewrite E. split; [exists e |]; reflexivity.
Qed.

Lemma Connect_baseURI_must_be_a_string_witness :
  Y.Lang.isString (VNum 5) = false
  /\ (exists e : string, result_of (Connect.set "baseURI" (VNum 5) conn_x) = Throw e)
  /\ object_of (Connect.set "baseURI" (VNum 5) conn_x) = conn_x.
Proof.
  split; [reflexivity |].
  apply (Connect_baseURI_must_be_a_string conn_x (VNum 5)). reflexivity.
Defined.

(** X3.  A fetch made after the base URI was assigned uses the stored,
    stripped value: after [set('baseURI', s + '/')], [fetchInfo(true)]
    requests [s/] and [fetchAllDatabases(true)] requests [s/_all_dbs],
    each as one request without [cfg]. *)
Theorem Connect_fetches_from_the_stripped_base (o : obj) (s : string) :
  requests_of
    (trace_of ((Connect.set "baseURI" (VStr (s +:+ "/")) ;;
                Connect.fetchInfo (VBool true)) o))
  = [ {| source := VStr (s +:+ "/");
         cfg := None;
         callback := Some Connect.fetchInfo_callbacks |} ]
  /\ requests_of
       (trace_of ((Connect.set "baseURI" (VStr (s +:+ "/")) ;;
                   Connect.fetchAllDatabases (VBool true)) o))
     = [ {| source := VStr (s +:+ "/_all_dbs");
            cfg := None;
            callback := Some Connect.fetchAllDatabases_callbacks |} ].
Proof.
  split.
  - rewrite (bind_Ret _ _ _ _ _ _ (Connect_set_baseURI o (s +:+ "/"))).
    rewrite Connect_fetchInfo_run. cbn [trace_of snd attrs].
    rewrite stored_get_eq, stripped_slash. reflexivity.
  - rewrite (bind_Ret _ _ _ _ _ _ (Connect_set_baseURI o (s +:+ "/"))).
    rewrite Connect_fetchAllDatabases_run. cbn [trace_of snd attrs].
    rewrite stored_get_eq, stripped_slash. reflexivity.
Qed.

(** ** Default handlers: what a response does to the object *)

Lemma stored_holds_now (name : string) (v : jsval) (o : obj) :
  holds_now name v o (stored name v o).
Proof.
  split; [apply stored_get_eq |].
  split; [| apply stored_uri].
  intros k Hk. apply stored_get_ne. congruence.
Qed.

(** X4.  On a Connect, the success callback of [fetchInfo] fires
    [couch:info] once with the parsed body and leaves that body, whole, in
    [info]; the one of [fetchAllDatabases] does the same with
    [couch:fetchAll] and [databases].  No other attribute changes and no
    request is made. *)
Theorem Connect_responses_are_stored (o : obj) (parsed : jsval) :
  (holds_now "info" parsed o
     (object_of (Connect.success Connect.fetchInfo_callbacks parsed o))
   /\ fired_of (trace_of (Connect.success Connect.fetchInfo_callbacks parsed o))
      = [ ("couch:info", VObj [("response", parsed)]) ]
   /\ requests_of (trace_of (Connect.success Connect.fetchInfo_callbacks parsed o))
      = [])
  /\ (holds_now "databases" parsed o
        (object_of (Connect.success Connect.fetchAllDatabases_callbacks parsed o))
      /\ fired_of
           (trace_of (Connect.success Connect.fetchAllDatabases_callbacks parsed o))
         = [ ("couch:fetchAll", VObj [("response", parsed)]) ]
      /\ requests_of
           (trace_of (Connect.success Connect.fetchAllDatabases_callbacks parsed o))
         = []).
Proof.
  rewrite Connect_info_stored, Connect_databases_stored, !object_of_eq.
  split; (split; [apply stored_holds_now | split; reflexivity]).
Qed.

(** X5.  On a DB, the success callback of [fetchInfo] stores the parsed
    body in [info] and the one of [fetchAllDocuments] stores it in
    [documents], each firing its event once; both attributes are
    [readOnly] and both handlers write through [_set], so every response
    replaces the one before. *)
Theorem DB_responses_are_stored (o : obj) (first second : jsval) :
  (holds_now "info" second
     (object_of (DB.success DB.fetchInfo_callbacks first o))
     (object_of (DB.success DB.fetchInfo_callbacks second
                   (object_of (DB.success DB.fetchInfo_callbacks first o))))
   /\ fired_of (trace_of (DB.success DB.fetchInfo_callbacks first o))
      = [ ("couch:info", VObj [("response", first)]) ])
  /\ (holds_now "documents" second
        (object_of (DB.success DB.fetchAllDocuments_callbacks first o))
        (object_of (DB.success DB.fetchAllDocuments_callbacks second
                      (object_of (DB.success DB.fetchAllDocuments_callbacks first o))))
      /\ fired_of (trace_of (DB.success DB.fetchAllDocuments_callbacks first o))
         = [ ("couch:fetchAll", VObj [("response", first)]) ]).
Proof.
  rewrite !DB_info_stored, !DB_documents_stored, !object_of_eq.
  split; (split; [apply stored_holds_now | reflexivity]).
Qed.

(** X6.  The success callback of [Document.open] fires [couch:opened]
    once and stores the parsed body in [data]; the one of
    [View.fetchData] fires [couch:data] once and stores it in [data] of
    the View.  A later response replaces an earlier one. *)
Theorem opened_and_view_data_are_stored (o : obj) (first second : jsval) :
  (holds_now "data" second
     (object_of (Document.success Document.open_callbacks first o))
     (object_of (Document.success Document.open_callbacks second
                   (object_of (Document.success Document.open_callbacks first o))))
   /\ fired_of (trace_of (Document.success Document.open_callbacks first o))
      = [ ("couch:opened", VObj [("response", first)]) ])
  /\ (holds_now "data" second
        (object_of (View.success View.fetchData_callbacks first o))
        (object_of (View.success View.fetchData_callbacks second
                      (object_of (View.success View.fetchData_callbacks first o))))
      /\ fired_of (trace_of (View.success View.fetchData_callbacks first o))
         = [ ("couch:data", VObj [("response", first)]) ]).
Proof.
  rewrite !Document_data_stored, !View_data_stored, !object_of_eq.
  split; (split; [apply stored_holds_now | reflexivity]).
Qed.

(** X7.  A failure callback, of any fetch of any of the four classes,
    fires [couch:error] exactly once, with the method's message followed
    by the transport's; the default handler logs that text once at level
    [error]; the object is unchanged and nothing is requested again. *)
Theorem failure_fires_one_error (cb : callbacks) (message : string) (o : obj) :
  Connect.failure cb message o = one_error cb message o
  /\ DB.failure cb message o = one_error cb message o
  /\ Document.failure cb message o = one_error cb message o
  /\ View.failure cb message o = one_error cb message o.
Proof. destruct o as [m u]. repeat split. Qed.

(** ** The resource path follows the attributes *)

Lemma Document_set_baseURI (o : obj) (v : jsval) :
  Document.set "baseURI" v o =
  (Ret tt,
   stored "baseURI" v
     {| attrs := attrs o;
        _uri := JS.to_string v +:+ "/"
                +:+ JS.to_string (Y.stateGet (attrs o) "databaseName") +:+ "/"
                +:+ JS.to_string (Y.stateGet (attrs o) "id") |},
   [ Log "_baseURISetter" "info" "Y.Couch.Document" ]).
Proof.
  destruct o as [m u]. unfold stored.
  destruct v; run_setter; destruct (Y.stateHas m "baseURI");
    split_store; reflexivity.
Qed.

Lemma Document_set_databaseName (o : obj) (v : jsval) :
  Document.set "databaseName" v o =
  (Ret tt,
   stored "databaseName" v
     {| attrs := attrs o;
        _uri := JS.to_string (Y.stateGet (attrs o) "baseURI") +:+ "/"
                +:+ JS.to_string v +:+ "/"
                +:+ JS.to_string (Y.stateGet (attrs o) "id") |},
   [ Log "_databaseNameSetter" "info" "Y.Couch.Document" ]).
Proof.
  destruct o as [m u]. unfold stored.
  destruct v; run_setter; destruct (Y.stateHas m "databaseName");
    split_store; reflexivity.
Qed.

Lemma View_set_baseURI (o : obj) (v : jsval) :
  View.set "baseURI" v o =
  (Ret tt,
   stored "baseURI" v
     {| attrs := attrs o;
        _uri := JS.to_string v +:+ "/_view/"
                +:+ JS.to_string (Y.stateGet (attrs o) "name") |},
   [ Log "_baseURISetter" "info" "Y.Couch.View" ]).
Proof.
  destruct o as [m u]. unfold stored.
  destruct v; run_setter; destruct (Y.stateHas m "baseURI");
    split_store; reflexivity.
Qed.

Lemma View_set_name (o : obj) (v : jsval) :
  View.set "name" v o =
  (Ret tt,
   stored "name" v
     {| attrs := attrs o;
        _uri := JS.to_string (Y.stateGet (attrs o) "baseURI") +:+ "/_view/"
                +:+ JS.to_string v |},
   [ Log "_nameSetter" "info" "Y.Couch.View" ]).
Proof.
  destruct o as [m u]. unfold stored.
  destruct v; run_setter; destruct (Y.stateHas m "name");
    split_store; reflexivity.
Qed.

(** Rewrites the reads of an attribute store after one [stored]. *)
Ltac read_stored :=
  repeat first
    [ rewrite stored_uri
    | rewrite stored_get_eq
    | rewrite stored_get_ne by discriminate ];
  cbn [_uri attrs].

(** ** Fetches read the path of the moment *)

Lemma Document_open_run (options : jsval) (o : obj) :
  Document.open options o =
  (Ret (VObj [("source", VStr (_uri o))]), o,
   [ Log "open" "info" "Y.Couch.Document";
     Log "_getDataSource" "info" "Y.Couch";
     Log "_newDataSource" "info" "Y.Couch";
     Request (GET (_uri o) options Document.open_callbacks) ]).
Proof. destruct o as [m u]. reflexivity. Qed.

Lemma Document_fetchInfo_run (o : obj) :
  Document.fetchInfo o =
  (Ret (VObj [("source", VStr (_uri o))]), o,
   [ Log "fetchInfo" "info" "Y.Couch.Document";
     Log "_getDataSource" "info" "Y.Couch";
     Log "_newDataSource" "info" "Y.Couch";
     Request (GET (_uri o) VUndefined Document.fetchInfo_callbacks) ]).
Proof. destruct o as [m u]. reflexivity. Qed.

Lemma DB_fetchInfo_run (o : obj) :
  DB.fetchInfo o =
  (Ret (VObj [("source", VStr (_uri o))]), o,
   [ Log "fetchInfo" "info" "Y.Couch.Db";
     Log "_getDataSource" "info" "Y.Couch";
     Log "_newDataSource" "info" "Y.Couch";
     Request (GET (_uri o) VUndefined DB.fetchInfo_callbacks) ]).
Proof. destruct o as [m u]. reflexivity. Qed.

Lemma DB_fetchAllDocuments_run (options : jsval) (o : obj) :
  DB.fetchAllDocuments options o =
  (Ret (VObj [("source", VStr (_uri o +:+ "_all_docs"))]), o,
   [ Log "fetchAllDocuments" "info" "Y.Couch.Db";
     Log "_getDataSource" "info" "Y.Couch";
     Log "_newDataSource" "info" "Y.Couch";
     Request (GET (_uri o +:+ "_all_docs") options
                DB.fetchAllDocuments_callbacks) ]).
Proof.
  destruct o as [m u].
  cbv -[Y.stateGet Y.stateAdd Y.stateHas String.append]. reflexivity.
Qed.

(** The requests of [set name v] followed by a fetch are those of the
    fetch, made on the object the assignment left. *)
Lemma requests_after_set {A : Type} (assign : M unit) (fetch : M A)
    (o o1 : obj) (l : list effect) :
  assign o = (Ret tt, o1, l) ->
  requests_of l = [] ->
  requests_of (trace_of ((assign ;; fetch) o)) = requests_of (trace_of (fetch o1)).
Proof.
  intros E Hl. rewrite (bind_Ret _ _ _ _ _ _ E).
  cbn [trace_of snd]. rewrite requests_of_app, Hl. reflexivity.
Qed.

(** X8.  No stale document path: after an assignment of any value to
    [baseURI], [databaseName] or [id], [open(options)] asks for the path
    spelled by the attributes as they are now, with [options] as the
    query; one GET, with the JSON content type. *)
Theorem Document_open_uses_the_current_path (o : obj) (v options : jsval) :
  requests_of (trace_of ((Document.set "baseURI" v ;; Document.open options) o))
  = [ GET (Document_path (object_of (Document.set "baseURI" v o))) options
        Document.open_callbacks ]
  /\ requests_of
       (trace_of ((Document.set "databaseName" v ;; Document.open options) o))
     = [ GET (Document_path (object_of (Document.set "databaseName" v o))) options
           Document.open_callbacks ]
  /\ requests_of (trace_of ((Document.set "id" v ;; Document.open options) o))
     = [ GET (Document_path (object_of (Document.set "id" v o))) options
           Document.open_callbacks ].
Proof.
  rewrite (requests_after_set _ _ _ _ _ (Document_set_baseURI o v) eq_refl).
  rewrite (requests_after_set _ _ _ _ _ (Document_set_databaseName o v) eq_refl).
  rewrite (requests_after_set _ _ _ _ _ (Document_set_id o v) eq_refl).
  rewrite Document_set_baseURI, Document_set_databaseName, Document_set_id,
    !object_of_eq, !Document_open_run.
  unfold Document_path. cbn [trace_of snd requests_of omap].
  repeat split; read_stored; reflexivity.
Qed.

(** X9.  The path of a DB follows any assignment, and both of its
    fetches read it: after an assignment of any value to [baseURI] or
    [name], [fetchInfo()] asks for [baseURI + '/' + name + '/'] of the
    values held now and [fetchAllDocuments(options)] for that path
    followed by [_all_docs], with [options] as the query. *)
Theorem DB_fetches_use_the_current_path (o : obj) (v options : jsval) :
  (requests_of (trace_of ((DB.set "baseURI" v ;; DB.fetchInfo) o))
   = [ GET (DB_path (object_of (DB.set "baseURI" v o))) VUndefined
         DB.fetchInfo_callbacks ]
   /\ requests_of (trace_of ((DB.set "name" v ;; DB.fetchInfo) o))
      = [ GET (DB_path (object_of (DB.set "name" v o))) VUndefined
            DB.fetchInfo_callbacks ])
  /\ (requests_of
        (trace_of ((DB.set "baseURI" v ;; DB.fetchAllDocuments options) o))
      = [ GET (DB_path (object_of (DB.set "baseURI" v o)) +:+ "_all_docs")
            options DB.fetchAllDocuments_callbacks ]
      /\ requests_of
           (trace_of ((DB.set "name" v ;; DB.fetchAllDocuments options) o))
         = [ GET (DB_path (object_of (DB.set "name" v o)) +:+ "_all_docs")
               options DB.fetchAllDocuments_callbacks ]).
Proof.
  rewrite !(requests_after_set _ _ _ _ _ (DB_set_baseURI o v) eq_refl).
  rewrite !(requests_after_set _ _ _ _ _ (DB_set_name o v) eq_refl).
  rewrite DB_set_baseURI, DB_set_name, !object_of_eq,
    !DB_fetchInfo_run, !DB_fetchAllDocuments_run.
  unfold DB_path. cbn [trace_of snd requests_of omap].
  repeat split; read_stored; reflexivity.
Qed.

(** X10.  The same for a View: after an assignment of any value to
    [baseURI] or [name], [fetchData()] asks for
    [baseURI + '/_view/' + name] of the values held now. *)
Theorem View_fetchData_uses_the_current_path (o : obj) (v : jsval) :
  List.map source
    (requests_of (trace_of ((View.set "baseURI" v ;; View.fetchData) o)))
  = [ VStr (View_path (object_of (View.set "baseURI" v o))) ]
  /\ List.map source
       (requests_of (trace_of ((View.set "name" v ;; View.fetchData) o)))
     = [ VStr (View_path (object_of (View.set "name" v o))) ].
Proof.
  rewrite (requests_after_set _ _ _ _ _ (View_set_baseURI o v) eq_refl).
  rewrite (requests_after_set _ _ _ _ _ (View_set_name o v) eq_refl).
  rewrite View_set_baseURI, View_set_name, !object_of_eq, !fetchData_run.
  unfold View_path. cbn [trace_of snd requests_of omap List.map source].
  repeat split; read_stored; reflexivity.
Qed.

(** ** Construction *)

Lemma frames_ret (names : list string) : frames names (ret tt).
Proof. intros o. exists o, []. repeat split. Qed.

Lemma frames_bind (l1 l2 : list string) (m k : M unit) :
  frames l1 m -> frames l2 k -> frames (l1 ++ l2) (m ;; k).
Proof.
  intros Hm Hk o.
  destruct (Hm o) as (o1 & t1 & E1 & U1 & F1 & R1 & V1).
  destruct (Hk o1) as (o2 & t2 & E2 & U2 & F2 & R2 & V2).
  exists o2, (t1 ++ t2)%list.
  rewrite (bind_Ret _ _ _ _ _ _ E1), E2. cbn [result_of object_of trace_of fst snd].
  split; [reflexivity |]. split; [congruence |].
  split.
  - intros k' Hk'. rewrite F2, F1; [reflexivity | |];
      intros Hin; apply Hk'; apply in_or_app; [left | right]; exact Hin.
  - rewrite requests_of_app, fired_of_app, R1, R2, V1, V2. split; reflexivity.
Qed.

Lemma setAttrVal_plain (k : string) (c : Y.attr_cfg) (init : bool) (v : jsval)
    (o : obj) :
  Y.setter c = None ->
  exists (b : bool) (o' : obj),
    Y._setAttrVal k c init v o = (Ret b, o', [])
    /\ _uri o' = _uri o
    /\ (forall k' : string, k' <> k ->
          Y.stateGet (attrs o') k' = Y.stateGet (attrs o) k').
Proof.
  intros Hs. destruct c as [val vfn ro vd st]. simpl in Hs. subst st.
  destruct o as [m u].
  assert (S : forall nv : jsval,
             exists (b : bool) (o' : obj),
               (if JS.strict_eq nv (Y.stateGet m k) && negb (JS.isObject nv)
                then ret false
                else Y._setStateVal k nv ;; ret true) {| attrs := m; _uri := u |}
               = (Ret b, o', [])
               /\ _uri o' = u
               /\ (forall k' : string, k' <> k ->
                     Y.stateGet (attrs o') k' = Y.stateGet m k')).
  { intros nv.
    destruct (JS.strict_eq nv (Y.stateGet m k) && negb (JS.isObject nv)).
    - exists false, {| attrs := m; _uri := u |}. repeat split.
    - exists true, {| attrs := Y.stateAdd m k nv; _uri := u |}.
      split; [reflexivity |]. split; [reflexivity |].
      intros k' Hk'. apply stateGet_add_ne. congruence. }
  unfold Y._setAttrVal.
  rewrite (bind_Ret _ _ _ (Y.stateGet m k) {| attrs := m; _uri := u |} [])
    by reflexivity.
  cbn [Y.validator Y.setter Y.value].
  assert (T : forall nv : jsval,
             exists (b : bool) (o' : obj),
               (nv0 <- ret nv ;;
                if JS.strict_eq nv0 (Y.stateGet m k) && negb (JS.isObject nv0)
                then ret false
                else Y._setStateVal k nv0 ;; ret true) {| attrs := m; _uri := u |}
               = (Ret b, o', [])
               /\ _uri o' = u
               /\ (forall k' : string, k' <> k ->
                     Y.stateGet (attrs o') k' = Y.stateGet m k')).
  { intros nv. destruct (S nv) as (b & o' & E & H1 & H2).
    exists b, o'.
    rewrite (bind_Ret _ _ _ nv {| attrs := m; _uri := u |} []) by reflexivity.
    rewrite E. repeat split; assumption. }
  destruct vd as [valid |].
  - destruct (valid v).
    + destruct (T v) as (b & o' & E & H1 & H2).
      exists b, o'. rewrite E. repeat split; assumption.
    + destruct init.
      * destruct (T (default VUndefined val)) as (b & o' & E & H1 & H2).
        exists b, o'. rewrite E. repeat split; assumption.
      * exists false, {| attrs := m; _uri := u |}. repeat split.
  - destruct (T v) as (b & o' & E & H1 & H2).
    exists b, o'. rewrite E. repeat split; assumption.
Qed.

Lemma setAttrVal_then_ret (k : string) (c : Y.attr_cfg) (v : jsval) (o : obj) :
  Y.setter c = None ->
  exists (o' : obj) (l : list effect),
    (_ <- Y._setAttrVal k c true v ;; ret tt) o = (Ret tt, o', l)
    /\ _uri o' = _uri o
    /\ (forall k' : string, ~ In k' [k] ->
          Y.stateGet (attrs o') k' = Y.stateGet (attrs o) k')
    /\ requests_of l = []
    /\ fired_of l = [].
Proof.
  intros Hs. destruct (setAttrVal_plain k c true v o Hs) as (b & o' & E & U & F).
  exists o', []. rewrite (bind_Ret _ _ _ _ _ _ E).
  split; [reflexivity |]. split; [exact U |].
  split; [| split; reflexivity].
  intros k' Hk'. apply F. intros ->. apply Hk'. left. reflexivity.
Qed.

Lemma addAttr_frames (config : list (string * jsval)) (k : string)
    (c : Y.attr_cfg) :
  plain c -> frames [k] (Y.addAttr config (k, c)).
Proof.
  intros [Hs Hf] o. unfold Y.addAttr.
  set (user := if Y.readOnly c then None
               else match JS.assoc k config with
                    | Some v => if JS.is_undefined v then None else Some v
                    | None => None
                    end).
  destruct user as [v |].
  - rewrite (bind_Ret _ _ _ (Some v) o []) by reflexivity.
    destruct (setAttrVal_then_ret k c v o Hs) as (o' & l & E & U & F & R & V).
    exists o', l. rewrite E. repeat split; assumption.
  - destruct (Y.valueFn c) as [fn |].
    + destruct (Hf o) as (v & l0 & E0 & R0 & V0).
      rewrite (bind_Ret _ _ _ (Some v) o l0)
        by (rewrite (bind_Ret _ _ _ _ _ _ E0); cbn; rewrite app_nil_r; reflexivity).
      destruct (setAttrVal_then_ret k c v o Hs) as (o' & l & E & U & F & R & V).
      exists o', (l0 ++ l)%list. rewrite E. cbn [result_of object_of trace_of fst snd].
      rewrite requests_of_app, fired_of_app, R0, R, V0, V.
      repeat split; assumption.
    + rewrite (bind_Ret _ _ _ (Y.value c) o []) by reflexivity.
      destruct (Y.value c) as [v |].
      * destruct (setAttrVal_then_ret k c v o Hs) as (o' & l & E & U & F & R & V).
        exists o', l. rewrite E. repeat split; assumption.
      * exists o, []. repeat split.
Qed.

Lemma addAttrs_frames (config : list (string * jsval))
    (ATTRS : list (string * Y.attr_cfg)) :
  Forall (fun kc => plain kc.2) ATTRS ->
  frames (List.map fst ATTRS) (Y.addAttrs config ATTRS).
Proof.
  induction 1 as [| [k c] rest Hc _ IH]; simpl.
  - apply frames_ret.
  - apply (frames_bind [k] (List.map fst rest)); [| exact IH].
    apply addAttr_frames. exact Hc.
Qed.

Lemma createDefaultDataSource_computes_only (names : list string) :
  computes_only (Base._createDefaultDataSource names).
Proof.
  intros [m u]. eexists _, _. split; [reflexivity |]. split; reflexivity.
Qed.

Lemma View_parameters_plain :
  Forall (fun kc => plain kc.2) (List.skipn 2 View.own_ATTRS).
Proof. repeat constructor. Qed.


Lemma DB_results_plain :
  Forall (fun kc => plain kc.2) (List.skipn 2 DB.own_ATTRS).
Proof. repeat constructor. Qed.

Lemma stateGet_empty (k : string) : Y.stateGet ∅ k = VUndefined.
Proof. unfold Y.stateGet. rewrite lookup_empty. reflexivity. Qed.

Lemma set_initialized (names : list string) (own : list (string * Y.attr_cfg))
    (o : obj) :
  Y._set (Y.Base_ATTRS ++ Base.ATTRS names ++ own) "initialized" (VBool true) o
  = (Ret tt, stored "initialized" (VBool true) o, []).
Proof.
  destruct o as [m u]. unfold stored.
  cbv -[Y.stateGet Y.stateAdd Y.stateHas JS.strict_eq JS.isObject].
  destruct (Y.stateHas m "initialized"); split_store; reflexivity.
Qed.

(** [Base.init], once the attributes of the class and its initializer are
    known to run: the object built is the one the initializer left, marked
    [initialized]; before the class's own attributes are added nothing but
    the three base attributes holds a value and [_uri] is empty. *)
Lemma Base_init_run (names : list string) (own : list (string * Y.attr_cfg))
    (initializer : M unit) (config : list (string * jsval)) :
  exists (o2 : obj) (l2 : list effect),
    _uri o2 = ""
    /\ (forall k : string, ~ In k ["initialized"; "destroyed"; "dataSource"] ->
          Y.stateGet (attrs o2) k = VUndefined)
    /\ requests_of l2 = []
    /\ fired_of l2 = []
    /\ forall (o5 o6 : obj) (lc li : list effect),
         Y.addAttrs config own o2 = (Ret tt, o5, lc) ->
         initializer o5 = (Ret tt, o6, li) ->
         Base.init names own initializer config
         = (Ret (stored "initialized" (VBool true) o6), (l2 ++ lc ++ li)%list).
Proof.
  assert (F : frames ["initialized"; "destroyed"; "dataSource"]
                (Y.addAttrs config Y.Base_ATTRS ;;
                 Y.addAttrs config (Base.ATTRS names))).
  { apply (frames_bind ["initialized"; "destroyed"] ["dataSource"]).
    - apply (addAttrs_frames config Y.Base_ATTRS). repeat constructor.
    - apply (addAttrs_frames config (Base.ATTRS names)).
      repeat constructor. apply createDefaultDataSource_computes_only. }
  destruct (F {| attrs := ∅; _uri := "" |}) as (o2 & l2 & E & U & G & R & V).
  exists o2, l2.
  split; [exact U |].
  split; [intros k Hk; rewrite (G k Hk); apply stateGet_empty |].
  split; [exact R |]. split; [exact V |].
  intros o5 o6 lc li Ec Ei. unfold Base.init.
  assert (E12 : (Y.addAttrs config Y.Base_ATTRS ;;
                 Y.addAttrs config (Base.ATTRS names))
                  {| attrs := ∅; _uri := "" |} = (Ret tt, o2, l2)).
  { exact E. }
  clear E F.
  assert (Run :
    (Y.addAttrs config Y.Base_ATTRS ;;
     Y.addAttrs config (Base.ATTRS names) ;;
     Y.addAttrs config own ;;
     initializer ;;
     Y._set (Y.Base_ATTRS ++ Base.ATTRS names ++ own) "initialized" (VBool true))
      {| attrs := ∅; _uri := "" |}
    = (Ret tt, stored "initialized" (VBool true) o6, (l2 ++ lc ++ li)%list)).
  { revert E12. unfold bind.
    destruct (Y.addAttrs config Y.Base_ATTRS {| attrs := ∅; _uri := "" |})
      as [[[[] | e] oa] la]; [| discriminate].
    destruct (Y.addAttrs config (Base.ATTRS names) oa) as [[rb ob] lb].
    intros H. injection H as -> -> <-.
    rewrite Ec, Ei, set_initialized.
    rewrite !app_nil_r, <- !app_assoc. reflexivity. }
  rewrite Run. reflexivity.
Qed.

Ltac add_setter_attr name config :=
  unfold Y.addAttr, initial; cbn [Y.readOnly];
  destruct (JS.assoc name config) as [[] |];
  run_setter; split_store; reflexivity.

Lemma DB_add_baseURI (config : list (string * jsval)) (o : obj) :
  Y.addAttr config
    ("baseURI",
     {| Y.value := Some (VStr ""); Y.valueFn := None; Y.readOnly := false;
        Y.validator := None; Y.setter := Some DB._baseURISetter |}) o
  = (Ret tt,
     stored "baseURI" (initial config "baseURI" (VStr ""))
       {| attrs := attrs o;
          _uri := JS.to_string (initial config "baseURI" (VStr "")) +:+ "/"
                  +:+ JS.to_string (Y.stateGet (attrs o) "name") +:+ "/" |},
     [ Log "_baseURISetter" "info" "Y.Couch.DB" ]).
Proof. destruct o as [m u]. unfold stored. add_setter_attr "baseURI" config. Qed.

Lemma DB_add_name (config : list (string * jsval)) (o : obj) :
  Y.addAttr config
    ("name",
     {| Y.value := Some (VStr ""); Y.valueFn := None; Y.readOnly := false;
        Y.validator := None; Y.setter := Some DB._nameSetter |}) o
  = (Ret tt,
     stored "name" (initial config "name" (VStr ""))
       {| attrs := attrs o;
          _uri := JS.to_string (Y.stateGet (attrs o) "baseURI") +:+ "/"
                  +:+ JS.to_string (initial config "name" (VStr "")) +:+ "/" |},
     [ Log "_nameSetter" "info" "Y.Couch.DB" ]).
Proof. destruct o as [m u]. unfold stored. add_setter_attr "name" config. Qed.

Lemma DB_add_own (config : list (string * jsval)) (o : obj) :
  exists (o5 : obj) (lc : list effect),
    Y.addAttrs config DB.own_ATTRS o = (Ret tt, o5, lc)
    /\ Y.stateGet (attrs o5) "baseURI" = initial config "baseURI" (VStr "")
    /\ Y.stateGet (attrs o5) "name" = initial config "name" (VStr "")
    /\ _uri o5 = DB_path o5
    /\ requests_of lc = []
    /\ fired_of lc = [].
Proof.
  pose proof (addAttrs_frames config _ DB_results_plain) as F.
  set (o3 := stored "baseURI" (initial config "baseURI" (VStr ""))
               {| attrs := attrs o;
                  _uri := JS.to_string (initial config "baseURI" (VStr "")) +:+ "/"
                          +:+ JS.to_string (Y.stateGet (attrs o) "name") +:+ "/" |}).
  set (o4 := stored "name" (initial config "name" (VStr ""))
               {| attrs := attrs o3;
                  _uri := JS.to_string (Y.stateGet (attrs o3) "baseURI") +:+ "/"
                          +:+ JS.to_string (initial config "name" (VStr ""))
                          +:+ "/" |}).
  destruct (F o4) as (o5 & l5 & E & U & G & R & V).
  exists o5, ([Log "_baseURISetter" "info" "Y.Couch.DB"]
              ++ [Log "_nameSetter" "info" "Y.Couch.DB"] ++ l5)%list.
  assert (B4 : Y.stateGet (attrs o4) "baseURI" = initial config "baseURI" (VStr "")).
  { unfold o4. rewrite stored_get_ne by discriminate. cbn [attrs].
    unfold o3. apply stored_get_eq. }
  assert (N4 : Y.stateGet (attrs o4) "name" = initial config "name" (VStr "")).
  { unfold o4. apply stored_get_eq. }
  assert (B5 : Y.stateGet (attrs o5) "baseURI" = initial config "baseURI" (VStr "")).
  { rewrite G; [exact B4 |]. simpl. intuition discriminate. }
  assert (N5 : Y.stateGet (attrs o5) "name" = initial config "name" (VStr "")).
  { rewrite G; [exact N4 |]. simpl. intuition discriminate. }
  split.
  { change (Y.addAttrs config DB.own_ATTRS)
      with (Y.addAttr config
              ("baseURI",
               {| Y.value := Some (VStr ""); Y.valueFn := None;
                  Y.readOnly := false; Y.validator := None;
                  Y.setter := Some DB._baseURISetter |}) ;;
            Y.addAttr config
              ("name",
               {| Y.value := Some (VStr ""); Y.valueFn := None;
                  Y.readOnly := false; Y.validator := None;
                  Y.setter := Some DB._nameSetter |}) ;;
            Y.addAttrs config (List.skipn 2 DB.own_ATTRS)).
    rewrite (bind_Ret _ _ _ _ _ _ (DB_add_baseURI config o)). fold o3.
    rewrite (bind_Ret _ _ _ _ _ _ (DB_add_name config o3)). fold o4.
    rewrite E. reflexivity. }
  split; [exact B5 |]. split; [exact N5 |].
  split.
  { unfold DB_path. rewrite U, B5, N5. unfold o4. rewrite stored_uri.
    cbn [_uri]. fold o3. unfold o4 in B4. rewrite stored_get_ne in B4 by discriminate.
    cbn [attrs] in B4. rewrite B4. reflexivity. }
  rewrite !requests_of_app, !fired_of_app, R, V. split; reflexivity.
Qed.

Lemma DB_initializer_run (o : obj) :
  DB.initializer o =
  (Ret tt, o,
   [ Log "fetchInfo" "info" "Y.Couch.Db";
     Log "_getDataSource" "info" "Y.Couch";
     Log "_newDataSource" "info" "Y.Couch";
     Request (GET (_uri o) VUndefined DB.fetchInfo_callbacks) ]).
Proof. destruct o as [m u]. reflexivity. Qed.

(** What [new Y.Couch.DB(config)] builds and sends, for any [config]. *)
Lemma DB_built (config : list (string * jsval)) :
  exists db : obj,
    (DB.new config).1 = Ret db
    /\ Y.stateGet (attrs db) "baseURI" = initial config "baseURI" (VStr "")
    /\ Y.stateGet (attrs db) "name" = initial config "name" (VStr "")
    /\ _uri db = DB_path db
    /\ requests_of (DB.new config).2
       = [ GET (DB_path db) VUndefined DB.fetchInfo_callbacks ]
    /\ fired_of (DB.new config).2 = [].
Proof.
  destruct (Base_init_run DB.names DB.own_ATTRS DB.initializer config)
    as (o2 & l2 & U2 & G2 & R2 & V2 & Run).
  destruct (DB_add_own config o2) as (o5 & lc & Ec & B5 & N5 & P5 & Rc & Vc).
  exists (stored "initialized" (VBool true) o5).
  unfold DB.new. rewrite (Run o5 o5 lc _ Ec (DB_initializer_run o5)).
  cbn [fst snd].
  assert (P : DB_path (stored "initialized" (VBool true) o5) = DB_path o5).
  { unfold DB_path. rewrite !stored_get_ne by discriminate. reflexivity. }
  split; [reflexivity |].
  split; [rewrite stored_get_ne by discriminate; exact B5 |].
  split; [rewrite stored_get_ne by discriminate; exact N5 |].
  split; [rewrite stored_uri, P; exact P5 |].
  rewrite !requests_of_app, !fired_of_app, R2, Rc, V2, Vc, P, <- P5.
  split; reflexivity.
Qed.

(** X11.  Whatever its argument holds, [new Y.Couch.DB(config)] returns
    normally with [baseURI] and [name] taken from [config] (the empty
    string where [config] has none, or [undefined]), with [_uri] equal to
    [baseURI + '/' + name + '/'] of those values, and having sent exactly
    one request: the GET of that path, made by the initializer.  No event
    is fired while it is built. *)
Theorem new_DB_fetches_its_info_once (config : list (string * jsval)) :
  exists db : obj,
    (DB.new config).1 = Ret db
    /\ Y.stateGet (attrs db) "baseURI" = initial config "baseURI" (VStr "")
    /\ Y.stateGet (attrs db) "name" = initial config "name" (VStr "")
    /\ _uri db = DB_path db
    /\ requests_of (DB.new config).2
       = [ GET (DB_path db) VUndefined DB.fetchInfo_callbacks ]
    /\ fired_of (DB.new config).2 = [].
Proof. exact (DB_built config). Qed.








(** ** Factories *)




Lemma View_add_baseURI (config : list (string * jsval)) (o : obj) :
  Y.addAttr config
    ("baseURI",
     {| Y.value := None; Y.valueFn := None; Y.readOnly := false;
        Y.validator := None; Y.setter := Some View._baseURISetter |}) o
  = if JS.is_undefined (initial config "baseURI" VUndefined)
    then (Ret tt, o, [])
    else (Ret tt,
          stored "baseURI" (initial config "baseURI" VUndefined)
            {| attrs := attrs o;
               _uri := JS.to_string (initial config "baseURI" VUndefined)
                       +:+ "/_view/"
                       +:+ JS.to_string (Y.stateGet (attrs o) "name") |},
          [ Log "_baseURISetter" "info" "Y.Couch.View" ]).
Proof.
  destruct o as [m u]. unfold stored.
  unfold Y.addAttr, initial; cbn [Y.readOnly].
  destruct (JS.assoc "baseURI" config) as [[] |];
    run_setter; try reflexivity; split_store; reflexivity.
Qed.

Lemma View_add_name (config : list (string * jsval)) (o : obj) :
  Y.addAttr config
    ("name",
     {| Y.value := Some (VStr ""); Y.valueFn := None; Y.readOnly := false;
        Y.validator := None; Y.setter := Some View._nameSetter |}) o
  = (Ret tt,
     stored "name" (initial config "name" (VStr ""))
       {| attrs := attrs o;
          _uri := JS.to_string (Y.stateGet (attrs o) "baseURI") +:+ "/_view/"
                  +:+ JS.to_string (initial config "name" (VStr "")) |},
     [ Log "_nameSetter" "info" "Y.Couch.View" ]).
Proof. destruct o as [m u]. unfold stored. add_setter_attr "name" config. Qed.

Lemma View_add_own (config : list (string * jsval)) (o : obj) :
  Y.stateGet (attrs o) "baseURI" = VUndefined ->
  exists (o5 : obj) (lc : list effect),
    Y.addAttrs config View.own_ATTRS o = (Ret tt, o5, lc)
    /\ Y.stateGet (attrs o5) "baseURI" = initial config "baseURI" VUndefined
    /\ Y.stateGet (attrs o5) "name" = initial config "name" (VStr "")
    /\ _uri o5 = View_path o5
    /\ requests_of lc = []
    /\ fired_of lc = [].
Proof.
  intros H0.
  pose proof (addAttrs_frames config _ View_parameters_plain) as F.
  destruct (Y.addAttr config
              ("baseURI",
               {| Y.value := None; Y.valueFn := None;
                  Y.readOnly := false; Y.validator := None;
                  Y.setter := Some View._baseURISetter |}) o)
    as [[r3 o3] l3] eqn:E3.
  pose proof E3 as E3'.
  rewrite View_add_baseURI in E3.
  assert (B3 : r3 = Ret tt
               /\ Y.stateGet (attrs o3) "baseURI" = initial config "baseURI" VUndefined
               /\ requests_of l3 = [] /\ fired_of l3 = []).
  { destruct (JS.is_undefined (initial config "baseURI" VUndefined)) eqn:Eu;
      injection E3 as <- <- <-.
    - repeat split. rewrite H0.
      destruct (initial config "baseURI" VUndefined); try discriminate Eu.
      reflexivity.
    - repeat split. apply stored_get_eq. }
  destruct B3 as (-> & B3 & R3 & V3). clear E3.
  destruct (Y.addAttr config
              ("name",
               {| Y.value := Some (VStr ""); Y.valueFn := None;
                  Y.readOnly := false; Y.validator := None;
                  Y.setter := Some View._nameSetter |}) o3)
    as [[r4 o4] l4] eqn:E4.
  pose proof E4 as E4'.
  rewrite View_add_name in E4. injection E4 as <- E4 <-.
  destruct (F o4) as (o5 & l5 & E & U & G & R & V).
  exists o5, (l3 ++ [Log "_nameSetter" "info" "Y.Couch.View"] ++ l5)%list.
  assert (B4 : Y.stateGet (attrs o4) "baseURI" = initial config "baseURI" VUndefined)
    by (rewrite <- E4, stored_get_ne by discriminate; exact B3).
  assert (N4 : Y.stateGet (attrs o4) "name" = initial config "name" (VStr ""))
    by (rewrite <- E4; apply stored_get_eq).
  assert (U4 : _uri o4 = View_path o4).
  { unfold View_path. rewrite B4, N4, <- E4, stored_uri. cbn [_uri].
    rewrite B3. reflexivity. }
  assert (K : forall k, In k ["baseURI"; "name"] ->
                        Y.stateGet (attrs o5) k = Y.stateGet (attrs o4) k).
  { intros k Hk. apply G. simpl in *. intuition (subst; discriminate). }
  split.
  { change (Y.addAttrs config View.own_ATTRS)
      with (Y.addAttr config
              ("baseURI",
               {| Y.value := None; Y.valueFn := None;
                  Y.readOnly := false; Y.validator := None;
                  Y.setter := Some View._baseURISetter |}) ;;
            Y.addAttr config
              ("name",
               {| Y.value := Some (VStr ""); Y.valueFn := None;
                  Y.readOnly := false; Y.validator := None;
                  Y.setter := Some View._nameSetter |}) ;;
            Y.addAttrs config (List.skipn 2 View.own_ATTRS)).
    rewrite (bind_Ret _ _ _ _ _ _ E3').
    rewrite (bind_Ret _ _ _ _ _ _ E4').
    rewrite E. reflexivity. }
  rewrite (K "baseURI"), (K "name") by (simpl; tauto).
  split; [exact B4 |]. split; [exact N4 |].
  split.
  { unfold View_path. rewrite (K "baseURI"), (K "name") by (simpl; tauto).
    rewrite U. exact U4. }
  rewrite !requests_of_app, !fired_of_app, R3, V3, R, V. split; reflexivity.
Qed.

(** What [new Y.Couch.View(config)] builds, for any [config]. *)
Lemma View_built (config : list (string * jsval)) :
  exists view : obj,
    (View.new config).1 = Ret view
    /\ Y.stateGet (attrs view) "baseURI" = initial config "baseURI" VUndefined
    /\ Y.stateGet (attrs view) "name" = initial config "name" (VStr "")
    /\ _uri view = View_path view
    /\ requests_of (View.new config).2 = []
    /\ fired_of (View.new config).2 = [].
Proof.
  destruct (Base_init_run View.names View.own_ATTRS View.initializer config)
    as (o2 & l2 & U2 & G2 & R2 & V2 & Run).
  assert (H0 : Y.stateGet (attrs o2) "baseURI" = VUndefined)
    by (apply G2; simpl; intuition discriminate).
  destruct (View_add_own config o2 H0) as (o5 & lc & Ec & B5 & N5 & P5 & Rc & Vc).
  exists (stored "initialized" (VBool true) o5).
  unfold View.new. rewrite (Run o5 o5 lc [] Ec eq_refl).
  cbn [fst snd].
  assert (P : View_path (stored "initialized" (VBool true) o5) = View_path o5).
  { unfold View_path. rewrite !stored_get_ne by discriminate. reflexivity. }
  split; [reflexivity |].
  split; [rewrite stored_get_ne by discriminate; exact B5 |].
  split; [rewrite stored_get_ne by discriminate; exact N5 |].
  split; [rewrite stored_uri, P; exact P5 |].
  rewrite !requests_of_app, !fired_of_app, R2, Rc, V2, Vc.
  split; reflexivity.
Qed.

(** X14.  Building a View has no side effect on the outside: whatever its
    argument holds, [new Y.Couch.View(config)] returns normally, sends no
    request and fires no event; it holds [config.baseURI] (nothing when
    [config] has none) and [config.name] (the empty string by default),
    and a [fetchData()] on it asks for [baseURI + '/_view/' + name] of
    those values. *)
Theorem new_View_sends_nothing (config : list (string * jsval)) :
  exists view : obj,
    (View.new config).1 = Ret view
    /\ Y.stateGet (attrs view) "baseURI" = initial config "baseURI" VUndefined
    /\ Y.stateGet (attrs view) "name" = initial config "name" (VStr "")
    /\ requests_of (View.new config).2 = []
    /\ fired_of (View.new config).2 = []
    /\ List.map source (requests_of (trace_of (View.fetchData view)))
       = [ VStr (JS.to_string (initial config "baseURI" VUndefined) +:+ "/_view/"
                 +:+ JS.to_string (initial config "name" (VStr ""))) ].
Proof.
  destruct (View_built config) as (view & E & B & N & P & R & V).
  exists view.
  split; [exact E |]. split; [exact B |]. split; [exact N |].
  split; [exact R |]. split; [exact V |].
  rewrite fetchData_run. cbn [trace_of snd requests_of omap List.map source].
  rewrite P. unfold View_path. rewrite B, N. reflexivity.
Qed.

Lemma assoc_set_eq (k : string) (v : jsval) (l : list (string * jsval)) :
  JS.assoc k (JS.assoc_set k v l) = Some v.
Proof.
  induction l as [| [k' v'] l IH]; simpl.
  - rewrite String.eqb_refl. reflexivity.
  - destruct (String.eqb k k') eqn:E; simpl.
    + rewrite String.eqb_refl. reflexivity.
    + rewrite E. exact IH.
Qed.

Lemma assoc_set_ne (k k' : string) (v : jsval) (l : list (string * jsval)) :
  k <> k' -> JS.assoc k' (JS.assoc_set k v l) = JS.assoc k' l.
Proof.
  intros Hne. induction l as [| [k0 v0] l IH]; simpl.
  - destruct (String.eqb k' k) eqn:E; [| reflexivity].
    apply String.eqb_eq in E. congruence.
  - destruct (String.eqb k k0) eqn:E; simpl.
    + apply String.eqb_eq in E. subst k0.
      destruct (String.eqb k' k) eqn:E'; [| reflexivity].
      apply String.eqb_eq in E'. congruence.
    + destruct (String.eqb k' k0); [reflexivity | exact IH].
Qed.

Lemma getView_run (o : obj) (name config : jsval) :
  Document.getView name config o =
  ((View.new
      (Base.config_of
         (Base.set_prop
            (Base.set_prop (if JS.truthy config then config else VObj [])
               "name" name) "baseURI" (VStr (_uri o))))).1,
   o,
   Log "getView" "info" "Y.Couch.Document"
     :: (View.new
           (Base.config_of
              (Base.set_prop
                 (Base.set_prop (if JS.truthy config then config else VObj [])
                    "name" name) "baseURI" (VStr (_uri o))))).2).
Proof.
  destruct o as [m u].
  cbv -[Y.stateGet Y.stateAdd Y.stateHas View.new Base.config_of Base.set_prop
        JS.truthy].
  destruct (View.new _) as [r t]. destruct r; reflexivity.
Qed.

(** X15.  [getView(name, config)] with a string [name] and a plain object
    as [config] returns a View whose [baseURI] is the Document's path and
    whose [name] is the one given, whatever [config] said about either;
    a [fetchData()] on it asks for that path followed by [/_view/] and the
    name.  No request is sent by [getView] itself, no event is fired and
    the Document is unchanged; leaving [config] out is the same as passing
    an empty object. *)
Theorem getView_views_the_document
    (o : obj) (name : string) (fields : list (string * jsval)) :
  (exists view : obj,
     result_of (Document.getView (VStr name) (VObj fields) o) = Ret view
     /\ object_of (Document.getView (VStr name) (VObj fields) o) = o
     /\ Y.stateGet (attrs view) "baseURI" = VStr (_uri o)
     /\ Y.stateGet (attrs view) "name" = VStr name
     /\ List.map source (requests_of (trace_of (View.fetchData view)))
        = [ VStr (_uri o +:+ "/_view/" +:+ name) ]
     /\ requests_of (trace_of (Document.getView (VStr name) (VObj fields) o)) = []
     /\ fired_of (trace_of (Document.getView (VStr name) (VObj fields) o)) = [])
  /\ Document.getView (VStr name) VUndefined o
     = Document.getView (VStr name) (VObj []) o.
Proof.
  split; [| rewrite !getView_run; reflexivity].
  rewrite getView_run. cbn [JS.truthy Base.set_prop Base.config_of].
  set (config := JS.assoc_set "baseURI" (VStr (_uri o))
                   (JS.assoc_set "name" (VStr name) fields)).
  destruct (View_built config) as (view & E & B & N & P & R & V).
  assert (Eb : initial config "baseURI" VUndefined = VStr (_uri o)).
  { unfold initial, config. rewrite assoc_set_eq. reflexivity. }
  assert (En : initial config "name" (VStr "") = VStr name).
  { unfold initial, config.
    rewrite assoc_set_ne by discriminate. rewrite assoc_set_eq. reflexivity. }
  rewrite Eb in B. rewrite En in N.
  exists view. unfold result_of, object_of, trace_of. cbn [fst snd].
  split; [exact E |]. split; [reflexivity |].
  split; [exact B |]. split; [exact N |].
  split.
  { rewrite fetchData_run. cbn [trace_of snd requests_of omap List.map source].
    rewrite P. unfold View_path. rewrite B, N. reflexivity. }
  split; [exact R | exact V].
Qed.

Lemma Connect_results_plain :
  Forall (fun kc => plain kc.2) (List.skipn 1 Connect.own_ATTRS).
Proof. repeat constructor. Qed.

Lemma Connect_add_baseURI (config : list (string * jsval)) (s : string) (o : obj) :
  JS.assoc "baseURI" config = Some (VStr s) ->
  Y.addAttr config
    ("baseURI",
     {| Y.value := None; Y.valueFn := None; Y.readOnly := false;
        Y.validator := None; Y.setter := Some Connect._baseURISetter |}) o
  = (Ret tt, stored "baseURI" (VStr (stripped s)) o,
     [ Log "_baseURISetter" "info" "Y.Couch.Connect" ]).
Proof.
  intros H. destruct o as [m u]. unfold stored, Y.addAttr. rewrite H.
  cbv -[Y.stateGet Y.stateAdd Y.stateHas Connect._baseURISetter stripped
        JS.strict_eq JS.isObject].
  rewrite Connect_baseURISetter_string.
  cbv -[Y.stateGet Y.stateAdd Y.stateHas stripped JS.strict_eq JS.isObject].
  split_store; reflexivity.
Qed.

Lemma Connect_initializer_run (o : obj) :
  Connect.initializer o =
  (Ret tt, o,
   [ Log "initializer" "info" "Y.Couch.Connect";
     Log "fetchInfo" "info" "Y.Couch.Connect";
     Log "_getDataSource" "info" "Y.Couch";
     Log "_newDataSource" "info" "Y.Couch";
     Request
       {| source := VStr (JS.to_string (Y.stateGet (attrs o) "baseURI") +:+ "/");
          cfg := None;
          callback := Some Connect.fetchInfo_callbacks |} ]).
Proof.
  destruct o as [m u].
  cbv -[Y.stateGet Y.stateAdd Y.stateHas JS.to_string String.append].
  reflexivity.
Qed.

(** X16.  [new Y.Couch.Connect(config)] with a string [s/] as
    [config.baseURI] returns normally, holds [s] as its [baseURI], and has
    sent exactly one request: the [fetchInfo(true)] of the initializer,
    for [s/], with no [cfg].  No event is fired while it is built. *)
Theorem new_Connect_fetches_its_info_once
    (config : list (string * jsval)) (s : string) :
  JS.assoc "baseURI" config = Some (VStr (s +:+ "/")) ->
  exists c : obj,
    (Connect.new config).1 = Ret c
    /\ Y.stateGet (attrs c) "baseURI" = VStr s
    /\ requests_of (Connect.new config).2
       = [ {| source := VStr (s +:+ "/");
              cfg := None;
              callback := Some Connect.fetchInfo_callbacks |} ]
    /\ fired_of (Connect.new config).2 = [].
Proof.
  intros H.
  destruct (Base_init_run Connect.names Connect.own_ATTRS Connect.initializer
              config) as (o2 & l2 & U2 & G2 & R2 & V2 & Run).
  pose proof (addAttrs_frames config _ Connect_results_plain) as F.
  destruct (F (stored "baseURI" (VStr (stripped (s +:+ "/"))) o2))
    as (o5 & l5 & E & U & G & R & V).
  assert (Ec : Y.addAttrs config Connect.own_ATTRS o2
               = (Ret tt, o5,
                  ([Log "_baseURISetter" "info" "Y.Couch.Connect"] ++ l5)%list)).
  { change (Y.addAttrs config Connect.own_ATTRS)
      with (Y.addAttr config
              ("baseURI",
               {| Y.value := None; Y.valueFn := None; Y.readOnly := false;
                  Y.validator := None;
                  Y.setter := Some Connect._baseURISetter |}) ;;
            Y.addAttrs config (List.skipn 1 Connect.own_ATTRS)).
    rewrite (bind_Ret _ _ _ _ _ _ (Connect_add_baseURI config _ o2 H)).
    rewrite E. reflexivity. }
  assert (B5 : Y.stateGet (attrs o5) "baseURI" = VStr s).
  { rewrite G by (simpl; intuition discriminate).
    rewrite stored_get_eq, stripped_slash. reflexivity. }
  exists (stored "initialized" (VBool true) o5).
  unfold Connect.new.
  rewrite (Run o5 o5 _ _ Ec (Connect_initializer_run o5)). cbn [fst snd].
  split; [reflexivity |].
  split; [rewrite stored_get_ne by discriminate; exact B5 |].
  rewrite !requests_of_app, !fired_of_app, R2, R, V2, V, B5.
  split; reflexivity.
Qed.

Lemma new_Connect_witness :
  JS.assoc "baseURI" [("baseURI", VStr ("http://x" +:+ "/"))]
  = Some (VStr ("http://x" +:+ "/"))
  /\ exists c : obj,
       (Connect.new [("baseURI", VStr ("http://x" +:+ "/"))]).1 = Ret c
       /\ Y.stateGet (attrs c) "baseURI" = VStr "http://x"
       /\ requests_of (Connect.new [("baseURI", VStr ("http://x" +:+ "/"))]).2
          = [ {| source := VStr ("http://x" +:+ "/");
                 cfg := None;
                 callback := Some Connect.fetchInfo_callbacks |} ]
       /\ fired_of (Connect.new [("baseURI", VStr ("http://x" +:+ "/"))]).2 = [].
Proof.
  split; [reflexivity |].
  apply (new_Connect_fetches_its_info_once
           [("baseURI", VStr ("http://x" +:+ "/"))] "http://x").
  reflexivity.
Defined.

(** ** A Document opened and saved back *)

(** X17.  What [open] brought is what [save] sends: once the success
    callback of [open] has stored a body with a truthy [_id], [save()]
    PUTs that same body, to the Document's path followed by the encoded
    [_id]. *)
Theorem save_sends_what_open_stored (o : obj) (parsed : jsval) :
  JS.truthy (JS.prop parsed "_id") = true ->
  requests_of
    (trace_of
       (Document.save VUndefined
          (object_of (Document.success Document.open_callbacks parsed o))))
  = [ {| source := VStr (_uri o +:+ JS.encodeURIComponent (JS.prop parsed "_id"));
         cfg := Some {| headers := [("Content-Type", "application/json")];
                        method := "PUT";
                        data := parsed |};
         callback := Some Document.save_callbacks |} ].
Proof.
  intros H. rewrite Document_data_stored, object_of_eq.
  rewrite save_sends; rewrite stored_get_eq; [| exact H].
  rewrite stored_uri. reflexivity.
Qed.

Lemma save_sends_what_open_stored_witness :
  JS.truthy (JS.prop (VObj [("_id", VStr "a b"); ("k", VStr "v")]) "_id") = true
  /\ requests_of
       (trace_of
          (Document.save VUndefined
             (object_of (Document.success Document.open_callbacks
                           (VObj [("_id", VStr "a b"); ("k", VStr "v")]) doc_1))))
     = [ {| source :=
              VStr (_uri doc_1 +:+ JS.encodeURIComponent
                                     (JS.prop (VObj [("_id", VStr "a b");
                                                     ("k", VStr "v")]) "_id"));
            cfg := Some {| headers := [("Content-Type", "application/json")];
                           method := "PUT";
                           data := VObj [("_id", VStr "a b"); ("k", VStr "v")] |};
            callback := Some Document.save_callbacks |} ].
Proof.
  split; [reflexivity |].
  apply (save_sends_what_open_stored doc_1
           (VObj [("_id", VStr "a b"); ("k", VStr "v")])).
  reflexivity.
Defined.

(** ** View parameters: what the validators let through *)

Lemma View_boolean_accepted (o : obj) (name : string) (b : bool) :
  In name ["descending"; "group"; "include_docs"; "inclusive_end"; "reduce"] ->
  View.set name (VBool b) o = (Ret tt, stored name (VBool b) o, []).
Proof.
  intros Hn. destruct o as [m u]. unfold stored. simpl in Hn.
  destruct Hn as [<- | [<- | [<- | [<- | [<- | []]]]]];
    cbv -[Y.stateGet Y.stateAdd Y.stateHas JS.strict_eq JS.isObject];
    destruct (Y.stateHas m _); split_store; reflexivity.
Qed.

(** X18.  [descending], [group], [include_docs], [inclusive_end] and
    [reduce] take booleans only: assigning a boolean stores it and changes
    nothing else; assigning anything else leaves the View exactly as it
    was, returns normally and fires nothing. *)
Theorem View_boolean_parameters_take_booleans_only
    (o : obj) (name : string) (v : jsval) (b : bool) :
  In name ["descending"; "group"; "include_docs"; "inclusive_end"; "reduce"] ->
  (result_of (View.set name (VBool b) o) = Ret tt
   /\ holds_now name (VBool b) o (object_of (View.set name (VBool b) o)))
  /\ (Y.Lang.isBoolean v = false -> View.set name v o = (Ret tt, o, [])).
Proof.
  intros Hn. split.
  - rewrite (View_boolean_accepted o name b Hn), object_of_eq.
    split; [reflexivity | apply stored_holds_now].
  - intros Hv. apply View_boolean_attributes_validated; assumption.
Qed.

Lemma View_boolean_parameters_witness :
  In "reduce" ["descending"; "group"; "include_docs"; "inclusive_end"; "reduce"]
  /\ (result_of (View.set "reduce" (VBool true) view_0) = Ret tt
      /\ holds_now "reduce" (VBool true) view_0
           (object_of (View.set "reduce" (VBool true) view_0)))
  /\ (Y.Lang.isBoolean (VNum 1) = false ->
      View.set "reduce" (VNum 1) view_0 = (Ret tt, view_0, [])).
Proof.
  split; [simpl; tauto |].
  apply (View_boolean_parameters_take_booleans_only view_0 "reduce" (VNum 1) true).
  simpl. tauto.
Defined.

Lemma View_stale_accepted (o : obj) (v : jsval) :
  v = VStr "ok" \/ v = VStr "update_after" ->
  View.set "stale" v o = (Ret tt, stored "stale" v o, []).
Proof.
  intros H. destruct o as [m u]. unfold stored.
  assert (E : View.stale_validator v = true) by (destruct H as [-> | ->]; reflexivity).
  cbv -[Y.stateGet Y.stateAdd Y.stateHas JS.strict_eq JS.isObject
        View.stale_validator].
  rewrite E.
  cbv -[Y.stateGet Y.stateAdd Y.stateHas JS.strict_eq JS.isObject].
  destruct (Y.stateHas m _); split_store; reflexivity.
Qed.

(** X19.  [stale] takes exactly the strings [ok] and [update_after]:
    either is stored; any other value, [undefined] and [null] included,
    leaves the View exactly as it was. *)
Theorem View_stale_takes_two_strings_only (o : obj) (v : jsval) :
  (v = VStr "ok" \/ v = VStr "update_after" ->
   result_of (View.set "stale" v o) = Ret tt
   /\ holds_now "stale" v o (object_of (View.set "stale" v o)))
  /\ (v <> VStr "ok" -> v <> VStr "update_after" ->
      View.set "stale" v o = (Ret tt, o, [])).
Proof.
  split.
  - intros H. rewrite (View_stale_accepted o v H), object_of_eq.
    split; [reflexivity | apply stored_holds_now].
  - apply View_stale_validated.
Qed.

Lemma View_skip_accepted (o : obj) (n : Z) :
  View.set "skip" (VNum n) o = (Ret tt, stored "skip" (VNum n) o, []).
Proof.
  destruct o as [m u]. unfold stored.
  cbv -[Y.stateGet Y.stateAdd Y.stateHas JS.strict_eq JS.isObject].
  destruct (Y.stateHas m _); split_store; reflexivity.
Qed.

(** X20.  [skip] takes finite numbers only: a number is stored; [NaN], a
    numeric string such as ['5'] and every other value leave the View
    exactly as it was. *)
Theorem View_skip_takes_numbers_only (o : obj) (n : Z) :
  (result_of (View.set "skip" (VNum n) o) = Ret tt
   /\ holds_now "skip" (VNum n) o (object_of (View.set "skip" (VNum n) o)))
  /\ View.set "skip" VNaN o = (Ret tt, o, [])
  /\ View.set "skip" (VStr "5") o = (Ret tt, o, [])
  /\ (forall v : jsval, Y.Lang.isNumber v = false ->
        object_of (View.set "skip" v o) = o).
Proof.
  split; [| split; [| split]].
  - rewrite View_skip_accepted, object_of_eq.
    split; [reflexivity | apply stored_holds_now].
  - apply View_skip_validated. reflexivity.
  - apply View_skip_validated. reflexivity.
  - intros v Hv. rewrite (View_skip_validated o v Hv). reflexivity.
Qed.

(** ** Connect.replicate: the body of the POST *)

Lemma prop_assoc_set_eq (k : string) (v : jsval) (l : list (string * jsval)) :
  JS.prop (VObj (JS.assoc_set k v l)) k = v.
Proof. simpl. rewrite assoc_set_eq. reflexivity. Qed.

Lemma prop_assoc_set_ne (k k' : string) (v : jsval) (l : list (string * jsval)) :
  k <> k' -> JS.prop (VObj (JS.assoc_set k v l)) k' = JS.prop (VObj l) k'.
Proof. intros H. simpl. rewrite assoc_set_ne by exact H. reflexivity. Qed.

Lemma replicate_run (o : obj) (src target : jsval) (fields : list (string * jsval)) :
  requests_of (trace_of (Connect.replicate src target (VObj fields) o))
  = [ {| source := VStr (JS.to_string (Y.stateGet (attrs o) "baseURI")
                         +:+ "/_replicate");
         cfg := Some {| headers := [("Content-Type", "application/json")];
                        method := "POST";
                        data := VObj (JS.assoc_set "target" target
                                        (JS.assoc_set "source" src fields)) |};
         callback := None |} ].
Proof.
  destruct o as [m u]. unfold Connect.replicate.
  destruct (negb (Y.Lang.isString src) && negb (Y.Lang.isString target));
    reflexivity.
Qed.

(** X21.  The body [replicate(source, target, config)] posts to
    [baseURI/_replicate] is [config] with [source] and [target] written
    over it: the two arguments win over whatever [config] held under those
    names, and every other entry of [config] is sent as it was.  With
    [config] left out the body is just the two. *)
Theorem replicate_posts_config_with_source_and_target
    (o : obj) (src target : jsval) (fields : list (string * jsval)) :
  exists body : jsval,
    requests_of (trace_of (Connect.replicate src target (VObj fields) o))
    = [ {| source := VStr (JS.to_string (Y.stateGet (attrs o) "baseURI")
                           +:+ "/_replicate");
           cfg := Some {| headers := [("Content-Type", "application/json")];
                          method := "POST";
                          data := body |};
           callback := None |} ]
    /\ JS.prop body "source" = src
    /\ JS.prop body "target" = target
    /\ (forall k : string, k <> "source" -> k <> "target" ->
          JS.prop body k = JS.prop (VObj fields) k)
    /\ requests_of (trace_of (Connect.replicate src target VUndefined o))
       = [ {| source := VStr (JS.to_string (Y.stateGet (attrs o) "baseURI")
                              +:+ "/_replicate");
              cfg := Some {| headers := [("Content-Type", "application/json")];
                             method := "POST";
                             data := VObj [("source", src); ("target", target)] |};
              callback := None |} ].
Proof.
  exists (VObj (JS.assoc_set "target" target (JS.assoc_set "source" src fields))).
  split; [apply replicate_run |].
  split; [rewrite prop_assoc_set_ne by discriminate; apply prop_assoc_set_eq |].
  split; [apply prop_assoc_set_eq |].
  split.
  - intros k Hs Ht. rewrite !prop_assoc_set_ne by congruence. reflexivity.
  - destruct o as [m u]. unfold Connect.replicate.
    destruct (negb (Y.Lang.isString src) && negb (Y.Lang.isString target));
      reflexivity.
Qed.

(** ** Document: views, options, ids *)

(** X22.  When [info] holds an object under [views], [getAllViews()]
    returns the names of the views, in the order [info.views] lists them,
    and fires nothing. *)
Theorem getAllViews_lists_the_views
    (o : obj) (info : jsval) (views : list (string * jsval)) :
  attrs o !! "info" = Some info ->
  JS.prop info "views" = VObj views ->
  result_of (Document.getAllViews o)
  = Ret (VArr (List.map (fun kv => VStr kv.1) views))
  /\ object_of (Document.getAllViews o) = o
  /\ fired_of (trace_of (Document.getAllViews o)) = []
  /\ requests_of (trace_of (Document.getAllViews o)) = [].
Proof.
  intros Hi Hv. destruct (getAllViews_with_views o info views Hi Hv) as [R F].
  split; [exact R |]. split; [| split; [exact F |]].
  - destruct o as [m u]. simpl in Hi.
    pose proof (stateGet_Some _ _ _ Hi) as G.
    assert (T : JS.truthy info = true)
      by (apply (truthy_prop_object info "views"); rewrite Hv; reflexivity).
    cbv -[Y.stateGet Y.stateAdd Y.stateHas JS.truthy JS.prop negb orb List.map].
    rewrite G, Hv, T. reflexivity.
  - destruct o as [m u]. simpl in Hi.
    pose proof (stateGet_Some _ _ _ Hi) as G.
    assert (T : JS.truthy info = true)
      by (apply (truthy_prop_object info "views"); rewrite Hv; reflexivity).
    cbv -[Y.stateGet Y.stateAdd Y.stateHas JS.truthy JS.prop negb orb List.map].
    rewrite G, Hv, T. reflexivity.
Qed.

Lemma getAllViews_lists_the_views_witness :
  attrs doc_1_informed !! "info"
  = Some (VObj [("_id", VStr "1");
                ("views", VObj [("by_name", VObj []); ("by_date", VObj [])])])
  /\ result_of (Document.getAllViews doc_1_informed)
     = Ret (VArr [VStr "by_name"; VStr "by_date"]).
Proof.
  split; [vm_compute; reflexivity |].
  apply (getAllViews_lists_the_views doc_1_informed
           (VObj [("_id", VStr "1");
                  ("views", VObj [("by_name", VObj []); ("by_date", VObj [])])])
           [("by_name", VObj []); ("by_date", VObj [])]).
  - vm_compute. reflexivity.
  - reflexivity.
Defined.

(** X23.  [save(options)] with any [options] other than [undefined], on a
    Document whose data has a truthy [_id], throws a [TypeError]: the
    method calls [this._queryString], which no class of the chain
    defines.  Nothing is sent and no event is fired. *)
Theorem save_with_options_is_a_TypeError (o : obj) (options : jsval) :
  JS.truthy (JS.prop (Y.stateGet (attrs o) "data") "_id") = true ->
  JS.is_undefined options = false ->
  result_of (Document.save options o)
  = Throw "TypeError: this._queryString is not a function"
  /\ requests_of (trace_of (Document.save options o)) = []
  /\ fired_of (trace_of (Document.save options o)) = [].
Proof.
  intros H Ho.
  destruct (save_with_options_throws o options H Ho) as [R Q].
  split; [exact R |]. split; [exact Q |].
  pose proof (truthy_prop_object _ _ H) as Hd.
  destruct o as [m u]. simpl in H, Hd.
  assert (G : negb (JS.truthy (Y.stateGet m "data"))
              || negb (JS.truthy (JS.prop (Y.stateGet m "data") "_id")) = false)
    by (rewrite H, Hd; reflexivity).
  cbv -[Y.stateGet Y.stateAdd Y.stateHas JS.truthy JS.prop negb orb
        JS.encodeURIComponent String.append JS.is_undefined].
  rewrite G, Ho. reflexivity.
Qed.

Lemma save_with_options_witness :
  JS.truthy (JS.prop (Y.stateGet (attrs doc_1_opened) "data") "_id") = true
  /\ JS.is_undefined (VObj [("batch", VStr "ok")]) = false
  /\ result_of (Document.save (VObj [("batch", VStr "ok")]) doc_1_opened)
     = Throw "TypeError: this._queryString is not a function".
Proof.
  split; [vm_compute; reflexivity |]. split; [reflexivity |].
  apply (save_with_options_is_a_TypeError doc_1_opened
           (VObj [("batch", VStr "ok")])).
  - vm_compute. reflexivity.
  - reflexivity.
Defined.

Lemma hex_digit_inj (a b : nat) :
  (a < 16)%nat -> (b < 16)%nat -> JS.hex_digit a = JS.hex_digit b -> a = b.
Proof.
  intros Ha Hb H. apply (f_equal nat_of_ascii) in H. unfold JS.hex_digit in H.
  destruct (Nat.ltb_spec a 10), (Nat.ltb_spec b 10);
    rewrite !nat_ascii_embedding in H by lia; lia.
Qed.

Lemma escape_char_inj (c1 c2 : ascii) :
  JS.escape_char c1 = JS.escape_char c2 -> c1 = c2.
Proof.
  unfold JS.escape_char. cbv zeta.
  pose proof (nat_ascii_bounded c1) as B1.
  pose proof (nat_ascii_bounded c2) as B2.
  pose proof (Nat.div_mod_eq (nat_of_ascii c1) 16) as D1.
  pose proof (Nat.div_mod_eq (nat_of_ascii c2) 16) as D2.
  pose proof (Nat.mod_upper_bound (nat_of_ascii c1) 16 ltac:(lia)) as M1.
  pose proof (Nat.mod_upper_bound (nat_of_ascii c2) 16 ltac:(lia)) as M2.
  remember (nat_of_ascii c1 / 16)%nat as q1.
  remember (nat_of_ascii c2 / 16)%nat as q2.
  remember (nat_of_ascii c1 mod 16)%nat as r1.
  remember (nat_of_ascii c2 mod 16)%nat as r2.
  intros H. injection H as H1 H2.
  apply hex_digit_inj in H1; [| lia | lia].
  apply hex_digit_inj in H2; [| lia | lia].
  assert (E : nat_of_ascii c1 = nat_of_ascii c2) by lia.
  rewrite <- (ascii_nat_embedding c1), <- (ascii_nat_embedding c2), E.
  reflexivity.
Qed.

Lemma encode_cons (c : ascii) (s : string) :
  JS.encode (String c s)
  = if JS.unreserved c then String c (JS.encode s)
    else String "%"
           (String (JS.hex_digit (nat_of_ascii c / 16))
              (String (JS.hex_digit (nat_of_ascii c mod 16)) (JS.encode s))).
Proof. simpl. destruct (JS.unreserved c); reflexivity. Qed.

(** [encodeURIComponent] never maps two strings to one. *)
Lemma encode_inj (s1 s2 : string) : JS.encode s1 = JS.encode s2 -> s1 = s2.
Proof.
  revert s2. induction s1 as [| c1 s1 IH]; intros [| c2 s2].
  - reflexivity.
  - rewrite encode_cons. simpl. destruct (JS.unreserved c2); discriminate.
  - rewrite encode_cons. simpl. destruct (JS.unreserved c1); discriminate.
  - rewrite !encode_cons.
    destruct (JS.unreserved c1) eqn:U1, (JS.unreserved c2) eqn:U2; intros H.
    + injection H as -> H. f_equal. apply IH. exact H.
    + injection H as -> H. discriminate U1.
    + injection H as <- H. discriminate U2.
    + injection H as H1 H2 H3.
      assert (E : c1 = c2).
      { apply escape_char_inj. unfold JS.escape_char. cbv zeta.
        change (JS.hex_digit (nat_of_ascii c1 / 16)
                = JS.hex_digit (nat_of_ascii c2 / 16))%nat in H1.
        change (JS.hex_digit (nat_of_ascii c1 mod 16)
                = JS.hex_digit (nat_of_ascii c2 mod 16))%nat in H2.
        rewrite H1, H2. reflexivity. }
      subst c2. f_equal. apply IH. exact H3.
Qed.

(** X24.  Two different ids never give one resource path: from the same
    Document, assigning [id1] and assigning [id2] lead to different [_uri]
    and to different stored ids whenever the two strings differ. *)
Theorem different_ids_have_different_paths (o : obj) (id1 id2 : string) :
  id1 <> id2 ->
  _uri (object_of (Document.set "id" (VStr id1) o))
  <> _uri (object_of (Document.set "id" (VStr id2) o))
  /\ Y.stateGet (attrs (object_of (Document.set "id" (VStr id1) o))) "id"
     <> Y.stateGet (attrs (object_of (Document.set "id" (VStr id2) o))) "id".
Proof.
  intros Hne.
  destruct (Document_id_assigned o (VStr id1)) as (I1 & _ & _ & U1).
  destruct (Document_id_assigned o (VStr id2)) as (I2 & _ & _ & U2).
  rewrite I1, I2, U1, U2.
  change (JS.encodeURIComponent (VStr id1)) with (JS.encode id1).
  change (JS.encodeURIComponent (VStr id2)) with (JS.encode id2).
  split.
  - intros E. do 4 apply append_cancel_l in E. apply Hne, encode_inj, E.
  - intros E. injection E as E. apply Hne, encode_inj, E.
Qed.

Lemma different_ids_witness :
  "a/b" <> "a%2Fb"
  /\ _uri (object_of (Document.set "id" (VStr "a/b") doc_1))
     <> _uri (object_of (Document.set "id" (VStr "a%2Fb") doc_1)).
Proof.
  split; [discriminate |].
  apply (different_ids_have_different_paths doc_1 "a/b" "a%2Fb"). discriminate.
Defined.

(** ** The shared data source *)

(** X25.  Only the boolean [true] gets a fetch a data source of its own.
    With any other argument [Connect.fetchInfo] and
    [Connect.fetchAllDatabases] use the one held by the [dataSource]
    attribute and leave their URL in it: the request goes to the right
    URL, and afterwards the attribute's data source has that URL as its
    [source], while every other attribute and [_uri] are as before. *)
Theorem Connect_fetch_without_true_uses_the_shared_data_source
    (o : obj) (getNew : jsval) (ds : list (string * jsval)) :
  JS.strict_eq getNew (VBool true) = false ->
  attrs o !! "dataSource" = Some (VObj ds) ->
  (List.map source (requests_of (trace_of (Connect.fetchInfo getNew o)))
   = [ VStr (JS.to_string (Y.stateGet (attrs o) "baseURI") +:+ "/") ]
   /\ holds_now "dataSource"
        (VObj (JS.assoc_set "source"
                 (VStr (JS.to_string (Y.stateGet (attrs o) "baseURI") +:+ "/")) ds))
        o (object_of (Connect.fetchInfo getNew o)))
  /\ (List.map source (requests_of (trace_of (Connect.fetchAllDatabases getNew o)))
      = [ VStr (JS.to_string (Y.stateGet (attrs o) "baseURI") +:+ "/_all_dbs") ]
      /\ holds_now "dataSource"
           (VObj (JS.assoc_set "source"
                    (VStr (JS.to_string (Y.stateGet (attrs o) "baseURI")
                           +:+ "/_all_dbs")) ds))
           o (object_of (Connect.fetchAllDatabases getNew o))).
Proof.
  intros Hg Hd. pose proof (stateGet_Some _ _ _ Hd) as G.
  destruct o as [m u]. simpl in Hd, G.
  split.
  - cbv -[Y.stateGet Y.stateAdd Y.stateHas JS.to_string String.append
          JS.strict_eq JS.assoc_set holds_now].
    rewrite Hg. cbn. rewrite G. cbn. rewrite assoc_set_eq. cbn.
    split; [reflexivity |].
    split; [apply stateGet_add_eq |]. split; [| reflexivity].
    intros k Hk. apply stateGet_add_ne. congruence.
  - cbv -[Y.stateGet Y.stateAdd Y.stateHas JS.to_string String.append
          JS.strict_eq JS.assoc_set holds_now].
    rewrite Hg. cbn. rewrite G. cbn. rewrite assoc_set_eq. cbn.
    split; [reflexivity |].
    split; [apply stateGet_add_eq |]. split; [| reflexivity].
    intros k Hk. apply stateGet_add_ne. congruence.
Qed.

Lemma Connect_shared_data_source_witness :
  JS.strict_eq (VBool false) (VBool true) = false
  /\ attrs conn_x !! "dataSource" = Some (VObj [("source", VNull)])
  /\ List.map source
       (requests_of (trace_of (Connect.fetchAllDatabases (VBool false) conn_x)))
     = [ VStr (JS.to_string (Y.stateGet (attrs conn_x) "baseURI") +:+ "/_all_dbs") ].
Proof.
  split; [reflexivity |]. split; [vm_compute; reflexivity |].
  pose proof (Connect_fetch_without_true_uses_the_shared_data_source conn_x
                (VBool false) [("source", VNull)] eq_refl
                ltac:(vm_compute; reflexivity)) as H.
  destruct H as (_ & H & _). exact H.
Defined.
